(** * The stats card of github-readme-stats: layout and sizing

    A shallow embedding of [src/cards/stats-card.js] and the properties of
    its row selection, sizing, rank geometry and accessibility summary.

    Conventions of the embedding.
    - A JavaScript number that takes part in layout arithmetic is a real
      number ([R]); the value [NaN] is kept apart where the code can
      produce or receive it ([option], or a constructor of its own).
      Counts of the statistics record are integers ([Z]).
    - A JavaScript string is a [string]; an array of strings is a
      [list string]; an object used as a map is a list of properties in
      insertion order.
    - The markup is kept as the tree of values that the template literals
      of the source interpolate, not flattened to text, except for the
      accessibility description, which is built as the text it is.
    - The collaborators imported from [../common] and [../translations.js]
      (translations, icons, formatter, text measurement, card frame) and
      the ambient clock and environment are the fields of a class. *)

From Stdlib Require Import Reals Lra ZArith Lia List String Ascii Bool.
From Stdlib Require Import DecimalString.
From Stdlib Require DecimalPos.
Import ListNotations.


(* ================================================================== *)
(** ** The JavaScript built-ins the card relies on *)

Module Js.

Local Open Scope string_scope.

(** [Array.prototype.includes] on an array of strings. *)
Definition includes (a : list string) (x : string) : bool :=
  existsb (String.eqb x) a.

(** An object: its own string-keyed properties in insertion order. *)
Definition obj (A : Type) : Type := list (string * A).

(** [o[k] = v]: an existing property keeps its place, a new one is
    appended. *)
Fixpoint set {A : Type} (o : obj A) (k : string) (v : A) : obj A :=
  match o with
  | [] => [(k, v)]
  | (k', v') :: o' =>
      if String.eqb k' k then (k, v) :: o' else (k', v') :: set o' k v
  end.

(** [o[k]]; [None] stands for [undefined]. *)
Fixpoint get {A : Type} (o : obj A) (k : string) : option A :=
  match o with
  | [] => None
  | (k', v) :: o' => if String.eqb k' k then Some v else get o' k
  end.

(** [Object.keys(o)]. *)
Definition keys {A : Type} (o : obj A) : list string := map fst o.

(** [a.map((x, index) => f(x, index))]. *)
Fixpoint map_from {A B : Type} (f : A -> nat -> B) (i : nat) (a : list A)
  : list B :=
  match a with
  | [] => []
  | x :: a' => f x i :: map_from f (S i) a'
  end.

Definition map_indexed {A B : Type} (f : A -> nat -> B) (a : list A)
  : list B :=
  map_from f 0 a.

(** [a.join(sep)] on an array of strings. *)
Fixpoint join (sep : string) (a : list string) : string :=
  match a with
  | [] => ""
  | [x] => x
  | x :: a' => x ++ sep ++ join sep a'
  end.

(** [s.slice(-1)]: the last character, or the empty string. *)
Fixpoint slice_last (s : string) : string :=
  match s with
  | EmptyString => ""
  | String c EmptyString => String c EmptyString
  | String _ s' => slice_last s'
  end.

(** [toLowerCase] / [toLocaleLowerCase] on the ASCII letters. *)
Definition lower_ascii (c : ascii) : ascii :=
  let n := nat_of_ascii c in
  if (65 <=? n)%nat && (n <=? 90)%nat then ascii_of_nat (n + 32) else c.

Fixpoint toLowerCase (s : string) : string :=
  match s with
  | EmptyString => EmptyString
  | String c s' => String (lower_ascii c) (toLowerCase s')
  end.

(** The white space [parseInt] skips, as far as ASCII goes: tab, line
    feed, vertical tab, form feed, carriage return and space. *)
Definition isWhiteSpace (c : ascii) : bool :=
  let n := nat_of_ascii c in
  ((9 <=? n)%nat && (n <=? 13)%nat) || (n =? 32)%nat.

Fixpoint trimStart (s : string) : string :=
  match s with
  | EmptyString => EmptyString
  | String c s' => if isWhiteSpace c then trimStart s' else s
  end.

Definition digit_of (c : ascii) : option Z :=
  let n := nat_of_ascii c in
  if (48 <=? n)%nat && (n <=? 57)%nat then Some (Z.of_nat (n - 48))
  else None.

(** The longest prefix of decimal digits, read as a number; [acc] is
    what has been read so far, [None] while no digit has been seen. *)
Fixpoint digits (s : string) (acc : option Z) : option Z :=
  match s with
  | EmptyString => acc
  | String c s' =>
      match digit_of c with
      | Some d =>
          digits s' (Some (10 * match acc with Some a => a | None => 0 end + d)%Z)
      | None => acc
      end
  end.

(** [parseInt(s, 10)]; [None] is [NaN]. *)
Definition parseInt10 (s : string) : option Z :=
  match trimStart s with
  | String "-" r => option_map Z.opp (digits r None)
  | String "+" r => digits r None
  | r => digits r None
  end.

(** [String(n)] for an integer in the range where JavaScript prints
    plain decimal digits. *)
Definition number_to_string (n : Z) : string :=
  NilZero.string_of_int (Z.to_int n).

(** Truthiness of a string that may be [undefined]. *)
Definition truthy_string (s : option string) : bool :=
  match s with
  | None | Some "" => false
  | Some _ => true
  end.

End Js.

(* ================================================================== *)
(** ** Data model *)

(** [rank] of the statistics record. *)
Record Rank : Type := {
  level : string;
  percentile : R
}.

(** [StatsData] of [../fetchers/types]. *)
Record StatsData : Type := {
  name : string;
  totalStars : Z;
  totalCommits : Z;
  totalIssues : Z;
  totalPRs : Z;
  totalPRsMerged : Z;
  mergedPRsPercentage : R;
  totalReviews : Z;
  totalDiscussionsStarted : Z;
  totalDiscussionsAnswered : Z;
  contributedTo : Z;
  rank : Rank
}.

(** What a caller can pass as [card_width]: nothing, a finite number, or
    a value that [isNaN] reports as not a number. Of the latter only the
    truthiness matters: [NaN] is falsy, a string such as ["wide"] is
    truthy. *)
Inductive WidthArg : Type :=
| WUndefined
| WNumber (r : R)
| WNotNumeric (truthy : bool).

(** [StatCardOptions], with the defaults of the destructuring applied.
    The colour overrides, [theme] and [border_radius] only travel to the
    colour resolver and the card frame and are left out. [line_height]
    is held as the text [String(line_height)] yields. *)
Record StatCardOptions : Type := {
  hide : list string;
  show_icons : bool;
  hide_title : bool;
  hide_border : bool;
  card_width : WidthArg;
  hide_rank : bool;
  include_all_commits : bool;
  line_height : string;
  text_bold : bool;
  custom_title : option string;
  number_format : string;
  locale : option string;
  disable_animations : bool;
  rank_icon : string;
  show : list string
}.

(** The options of a call [renderStatsCard(stats)] or
    [renderStatsCard(stats, {})]. *)
Definition default_options : StatCardOptions := {|
  hide := [];
  show_icons := false;
  hide_title := false;
  hide_border := false;
  card_width := WUndefined;
  hide_rank := false;
  include_all_commits := false;
  line_height := "25";
  text_bold := true;
  custom_title := None;
  number_format := "short";
  locale := None;
  disable_animations := false;
  rank_icon := "default";
  show := []
|}.

(** The value of a statistic: a count, or the text [toFixed] produced. *)
Inductive StatValue : Type :=
| VNum (n : Z)
| VStr (s : string).

(** An entry of the [STATS] object. *)
Record Stat : Type := {
  icon : string;
  label : string;
  value : StatValue;
  id : string;
  unitSymbol : option string
}.

(** The text item [createTextNode] builds, by the holes of its template. *)
Record TextNode : Type := {
  tn_staggerDelay : Z;
  tn_iconSvg : option string;
  tn_labelOffset : option Z;
  tn_bold : bool;
  tn_label : string;
  tn_x : R;
  tn_testid : string;
  tn_kValue : string;
  tn_unit : option string
}.

(** The rank circle group. *)
Record RankCircle : Type := {
  rc_x : R;
  rc_y : option R;
  rc_icon : string
}.

(** What reaches the card frame: the constructor arguments, the setters'
    arguments and the body handed to [card.render]. *)
Record Markup : Type := {
  m_title : string;
  m_width : R;
  m_height : option Z;
  m_hideBorder : bool;
  m_hideTitle : bool;
  m_keyframes : option (R * R);
  m_animationsDisabled : bool;
  m_a11y_title : string;
  m_a11y_desc : string;
  m_rankCircle : option RankCircle;
  m_items : list TextNode;
  m_gap : option Z
}.

(** [CustomError(message, secondaryMessage)]. *)
Record CustomError : Type := {
  message : string;
  secondaryMessage : string
}.

(* ================================================================== *)
(** ** Constants *)

Definition CARD_MIN_WIDTH : R := 287.
Definition CARD_DEFAULT_WIDTH : R := 287.
Definition RANK_CARD_MIN_WIDTH : R := 420.
Definition RANK_CARD_DEFAULT_WIDTH : R := 450.
Definition RANK_ONLY_CARD_MIN_WIDTH : R := 290.
Definition RANK_ONLY_CARD_DEFAULT_WIDTH : R := 290.

Definition longLocales : list string :=
  [ "cn"; "es"; "fr"; "pt-br"; "ru"; "uk-ua"; "id"; "ml"; "my"; "pl"; "de";
    "nl"; "zh-tw"; "uz" ]%string.

(* ================================================================== *)
(** ** The progress arc *)

Local Open Scope R_scope.

(** [calculateCircleProgress]: the two [if] statements overwrite [value]
    one after the other. *)
Definition calculateCircleProgress (value : R) : R :=
  let radius := 40 in
  let c := PI * (radius * 2) in
  let value := if Rlt_dec value 0 then 0 else value in
  let value := if Rgt_dec value 100 then 100 else value in
  ((100 - value) / 100) * c.

(** [getProgressAnimation]: the [from] and [to] offsets of the
    [rankAnimation] keyframes. *)
Definition getProgressAnimation (progress : R) : R * R :=
  (calculateCircleProgress 0, calculateCircleProgress progress).

(** The arc offset as the specification words it. *)
Definition clamp (v lo hi : R) : R := Rmax lo (Rmin v hi).

Definition circumference : R := 2 * PI * 40.

Definition offsetAt (v : R) : R :=
  ((100 - clamp v 0 100) / 100) * circumference.

(** Modelled from the spec: [clampValue] of [../common/utils.js] is not
    among the sources; the card calls it with the ceiling [Infinity], for
    which the specification describes a floor and no ceiling. *)
Definition clampValue_unbounded (number min : R) : R := Rmax min number.

(* ================================================================== *)
(** ** The card *)

(** The collaborators of the card, and the two ambient readings it makes.
    They are out of the card's own code; every property below holds
    whatever they answer. *)
Class Collaborators : Type := {
  (** [new I18n({locale, translations: statCardLocales({name, apostrophe})}).t]:
      name, apostrophe, locale, key. *)
  I18n_t : string -> string -> option string -> string -> string;
  (** [icons[key]]. *)
  icons : string -> string;
  (** [rankIcon(rank_icon, level, percentile)]. *)
  rankIcon : string -> string -> R -> string;
  (** [kFormatter(value)], as the template prints it. *)
  kFormatter : StatValue -> string;
  (** [measureText(text)]. *)
  measureText : string -> R;
  (** [n.toFixed(2)]. *)
  toFixed2 : R -> string;
  (** [card.title] of a frame built with [customTitle] and [defaultTitle]. *)
  Card_title : option string -> string -> string;
  (** [new Date().getFullYear()]. *)
  currentYear : Z;
  (** [process.env.NODE_ENV === "test"]. *)
  NODE_ENV_test : bool
}.

Section StatsCard.

Local Open Scope string_scope.

Context {env : Collaborators}.

(** A value inside a template literal. *)
Definition value_to_string (v : StatValue) : string :=
  match v with
  | VNum n => Js.number_to_string n
  | VStr s => s
  end.

Definition createTextNode (icon label : string) (value : StatValue)
    (id : string) (unitSymbol : option string) (index : nat)
    (showIcons : bool) (shiftValuePos : R) (bold : bool)
    (number_format : string) : TextNode :=
  let kValue :=
    if String.eqb (Js.toLowerCase number_format) "long"
    then value_to_string value
    else kFormatter value in
  let staggerDelay := ((Z.of_nat index + 3) * 150)%Z in
  let labelOffset := if showIcons then Some 25%Z else None in
  let iconSvg := if showIcons then Some icon else None in
  {| tn_staggerDelay := staggerDelay;
     tn_iconSvg := iconSvg;
     tn_labelOffset := labelOffset;
     tn_bold := bold;
     tn_label := label;
     tn_x := ((if showIcons then 140 else 120) + shiftValuePos)%R;
     tn_testid := id;
     tn_kValue := kValue;
     tn_unit := if Js.truthy_string unitSymbol then unitSymbol else None |}.

(** [getStyles], as far as it depends on [progress]: the keyframes are
    left out under the test environment. *)
Definition getStyles (progress : R) : option (R * R) :=
  if NODE_ENV_test then None else Some (getProgressAnimation progress).

(** What reading a property of [undefined] is replaced by; every key
    taken from [Object.keys(STATS)] has its entry. *)
Definition stat_undefined : Stat :=
  {| icon := ""; label := ""; value := VStr ""; id := "";
     unitSymbol := None |}.

Section Render.

Variable stats : StatsData.
Variable options : StatCardOptions.

Definition lheight : option Z := Js.parseInt10 (line_height options).

Definition apostrophe : string :=
  if Js.includes ["x"; "s"] (Js.toLowerCase (Js.slice_last (name stats)))
  then "" else "s".

Definition t (key : string) : string :=
  I18n_t (name stats) apostrophe (locale options) key.

(** The [STATS] object, property by property as the source assigns
    them. *)
Definition STATS : Js.obj Stat :=
  let STATS := [] in
  let STATS := Js.set STATS "stars"
    {| icon := icons "star";
       label := t "statcard.totalstars";
       value := VNum (totalStars stats);
       id := "stars"; unitSymbol := None |} in
  let STATS := Js.set STATS "commits"
    {| icon := icons "commits";
       label := t "statcard.commits" ++
                (if include_all_commits options then ""
                 else " (" ++ Js.number_to_string currentYear ++ ")");
       value := VNum (totalCommits stats);
       id := "commits"; unitSymbol := None |} in
  let STATS := Js.set STATS "prs"
    {| icon := icons "prs";
       label := t "statcard.prs";
       value := VNum (totalPRs stats);
       id := "prs"; unitSymbol := None |} in
  let STATS :=
    if Js.includes (show options) "prs_merged" then
      Js.set STATS "prs_merged"
        {| icon := icons "prs_merged";
           label := t "statcard.prs-merged";
           value := VNum (totalPRsMerged stats);
           id := "prs_merged"; unitSymbol := None |}
    else STATS in
  let STATS :=
    if Js.includes (show options) "prs_merged_percentage" then
      Js.set STATS "prs_merged_percentage"
        {| icon := icons "prs_merged_percentage";
           label := t "statcard.prs-merged-percentage";
           value := VStr (toFixed2 (mergedPRsPercentage stats));
           id := "prs_merged_percentage"; unitSymbol := Some "%" |}
    else STATS in
  let STATS :=
    if Js.includes (show options) "reviews" then
      Js.set STATS "reviews"
        {| icon := icons "reviews";
           label := t "statcard.reviews";
           value := VNum (totalReviews stats);
           id := "reviews"; unitSymbol := None |}
    else STATS in
  let STATS := Js.set STATS "issues"
    {| icon := icons "issues";
       label := t "statcard.issues";
       value := VNum (totalIssues stats);
       id := "issues"; unitSymbol := None |} in
  let STATS :=
    if Js.includes (show options) "discussions_started" then
      Js.set STATS "discussions_started"
        {| icon := icons "discussions_started";
           label := t "statcard.discussions-started";
           value := VNum (totalDiscussionsStarted stats);
           id := "discussions_started"; unitSymbol := None |}
    else STATS in
  let STATS :=
    if Js.includes (show options) "discussions_answered" then
      Js.set STATS "discussions_answered"
        {| icon := icons "discussions_answered";
           label := t "statcard.discussions-answered";
           value := VNum (totalDiscussionsAnswered stats);
           id := "discussions_answered"; unitSymbol := None |}
    else STATS in
  let STATS := Js.set STATS "contribs"
    {| icon := icons "contribs";
       label := t "statcard.contribs";
       value := VNum (contributedTo stats);
       id := "contribs"; unitSymbol := None |} in
  STATS.

(** [STATS[key]]. *)
Definition STATS_at (key : string) : Stat :=
  match Js.get STATS key with
  | Some s => s
  | None => stat_undefined
  end.

Definition isLongLocale : bool :=
  if Js.truthy_string (locale options)
  then match locale options with
       | Some l => Js.includes longLocales l
       | None => false
       end
  else false.

Definition statItems : list TextNode :=
  Js.map_indexed
    (fun key index =>
       createTextNode
         (icon (STATS_at key))
         (label (STATS_at key))
         (value (STATS_at key))
         (id (STATS_at key))
         (unitSymbol (STATS_at key))
         index
         (show_icons options)
         (7901 / 100 + (if isLongLocale then 50 else 0))%R
         (text_bold options)
         (number_format options))
    (filter (fun key => negb (Js.includes (hide options) key))
            (Js.keys STATS)).

(** [Math.max(45 + (statItems.length + 1) * lheight, ...)]; a [NaN]
    line height makes the maximum [NaN]. *)
Definition height : option Z :=
  match lheight with
  | Some lh =>
      Some (Z.max (45 + (Z.of_nat (List.length statItems) + 1) * lh)
                  (if hide_rank options then 0
                   else if negb (List.length statItems =? 0)%nat then 150
                   else 180))%Z
  | None => None
  end.

Definition progress : R := (100 - percentile (rank stats))%R.

Definition cssStyles : option (R * R) := getStyles progress.

Definition defaultTitle : string :=
  if negb (List.length statItems =? 0)%nat
  then t "statcard.title"
  else t "statcard.ranktitle".

Definition calculateTextWidth : R :=
  measureText
    (if Js.truthy_string (custom_title options)
     then match custom_title options with
          | Some c => c
          | None => defaultTitle
          end
     else defaultTitle).

Definition iconWidth : R :=
  if show_icons options && negb (List.length statItems =? 0)%nat
  then (16 + 1)%R else 0%R.

Definition minCardWidth : R :=
  ((if hide_rank options
    then clampValue_unbounded (50 + calculateTextWidth * 2) CARD_MIN_WIDTH
    else if negb (List.length statItems =? 0)%nat
         then RANK_CARD_MIN_WIDTH
         else RANK_ONLY_CARD_MIN_WIDTH) + iconWidth)%R.

Definition defaultCardWidth : R :=
  ((if hide_rank options
    then CARD_DEFAULT_WIDTH
    else if negb (List.length statItems =? 0)%nat
         then RANK_CARD_DEFAULT_WIDTH
         else RANK_ONLY_CARD_DEFAULT_WIDTH) + iconWidth)%R.

(** Truthiness and [isNaN] of the [card_width] argument. *)
Definition width_truthy (w : WidthArg) : bool :=
  match w with
  | WUndefined => false
  | WNumber r => if Req_dec_T r 0 then false else true
  | WNotNumeric b => b
  end.

Definition width_isNaN (w : WidthArg) : bool :=
  match w with
  | WNumber _ => false
  | WUndefined | WNotNumeric _ => true
  end.

(** The [let width = ...] and the [if] that follows it. *)
Definition width : R :=
  let width :=
    if width_truthy (card_width options)
    then if width_isNaN (card_width options)
         then defaultCardWidth
         else match card_width options with
              | WNumber r => r
              | _ => defaultCardWidth
              end
    else defaultCardWidth in
  if Rlt_dec width minCardWidth then minCardWidth else width.

Definition calculateRankXTranslation : R :=
  if negb (List.length statItems =? 0)%nat then
    let minXTranslation := (RANK_CARD_MIN_WIDTH + iconWidth - 70)%R in
    if Rgt_dec width RANK_CARD_DEFAULT_WIDTH then
      let xMaxExpansion :=
        (minXTranslation + (450 - minCardWidth) / 2)%R in
      (xMaxExpansion + width - RANK_CARD_DEFAULT_WIDTH)%R
    else
      (minXTranslation + (width - minCardWidth) / 2)%R
  else
    (width / 2 + 20 - 10)%R.

Definition rankCircle : option RankCircle :=
  if hide_rank options then None
  else Some {| rc_x := calculateRankXTranslation;
               rc_y := option_map (fun h => (IZR h / 2 - 50)%R) height;
               rc_icon := rankIcon (rank_icon options)
                                   (level (rank stats))
                                   (percentile (rank stats)) |}.

(** One entry of the accessibility description. *)
Definition label_of (key : string) : string :=
  if String.eqb key "commits" then
    t "statcard.commits" ++ " " ++
    (if include_all_commits options then ""
     else "in " ++ Js.number_to_string currentYear) ++
    " : " ++ value_to_string (value (STATS_at key))
  else
    label (STATS_at key) ++ ": " ++ value_to_string (value (STATS_at key)).

Definition labels : string :=
  Js.join ", "
    (map label_of
         (filter (fun key => negb (Js.includes (hide options) key))
                 (Js.keys STATS))).

Definition renderStatsCard : CustomError + Markup :=
  if (List.length statItems =? 0)%nat && hide_rank options then
    inl {| message := "Could not render stats card.";
           secondaryMessage := "Either stats or rank are required." |}
  else
    let title := Card_title (custom_title options) defaultTitle in
    inr {| m_title := title;
           m_width := width;
           m_height := height;
           m_hideBorder := hide_border options;
           m_hideTitle := hide_title options;
           m_keyframes := cssStyles;
           m_animationsDisabled := disable_animations options;
           m_a11y_title := title ++ ", Rank: " ++ level (rank stats);
           m_a11y_desc := labels;
           m_rankCircle := rankCircle;
           m_items := statItems;
           m_gap := lheight |}.

End Render.

End StatsCard.

(* ================================================================== *)
(** ** The row selection as the specification words it *)

Definition canonical_keys : list string :=
  [ "stars"; "commits"; "prs"; "prs_merged"; "prs_merged_percentage";
    "reviews"; "issues"; "discussions_started"; "discussions_answered";
    "contribs" ]%string.

(** The rows that are included only when [show] names them. *)
Definition optional_keys : list string :=
  [ "prs_merged"; "prs_merged_percentage"; "reviews"; "discussions_started";
    "discussions_answered" ]%string.

(** The canonical list restricted to the keys that are always included
    or named in [show], and not named in [hide]. *)
Definition selected_keys (show hide : list string) : list string :=
  filter
    (fun k =>
       (negb (Js.includes optional_keys k) || Js.includes show k)
       && negb (Js.includes hide k))
    canonical_keys.

(** The three sizing modes and their minimum height. *)
Definition modeMinimumHeight (hide_rank : bool) (rowCount : nat) : Z :=
  if hide_rank then 0%Z
  else match rowCount with
       | O => 180%Z
       | S _ => 150%Z
       end.

(* ================================================================== *)
(** ** Options differing in one field, and sample inputs *)

Definition with_card_width (w : WidthArg) (o : StatCardOptions)
  : StatCardOptions :=
  {| hide := hide o; show_icons := show_icons o; hide_title := hide_title o;
     hide_border := hide_border o; card_width := w;
     hide_rank := hide_rank o;
     include_all_commits := include_all_commits o;
     line_height := line_height o; text_bold := text_bold o;
     custom_title := custom_title o; number_format := number_format o;
     locale := locale o; disable_animations := disable_animations o;
     rank_icon := rank_icon o; show := show o |}.

Definition with_locale (l : option string) (o : StatCardOptions)
  : StatCardOptions :=
  {| hide := hide o; show_icons := show_icons o; hide_title := hide_title o;
     hide_border := hide_border o; card_width := card_width o;
     hide_rank := hide_rank o;
     include_all_commits := include_all_commits o;
     line_height := line_height o; text_bold := text_bold o;
     custom_title := custom_title o; number_format := number_format o;
     locale := l; disable_animations := disable_animations o;
     rank_icon := rank_icon o; show := show o |}.

Definition with_hide_rank (b : bool) (o : StatCardOptions)
  : StatCardOptions :=
  {| hide := hide o; show_icons := show_icons o; hide_title := hide_title o;
     hide_border := hide_border o; card_width := card_width o;
     hide_rank := b;
     include_all_commits := include_all_commits o;
     line_height := line_height o; text_bold := text_bold o;
     custom_title := custom_title o; number_format := number_format o;
     locale := locale o; disable_animations := disable_animations o;
     rank_icon := rank_icon o; show := show o |}.

Definition with_show_hide (sh hi : list string) (o : StatCardOptions)
  : StatCardOptions :=
  {| hide := hi; show_icons := show_icons o; hide_title := hide_title o;
     hide_border := hide_border o; card_width := card_width o;
     hide_rank := hide_rank o;
     include_all_commits := include_all_commits o;
     line_height := line_height o; text_bold := text_bold o;
     custom_title := custom_title o; number_format := number_format o;
     locale := locale o; disable_animations := disable_animations o;
     rank_icon := rank_icon o; show := sh |}.

(** Collaborators that answer with their argument: a translation is its
    key, every title is 200 wide, the year is 2026. *)
Definition plain_collaborators : Collaborators :=
  {| I18n_t := fun _ _ _ key => key;
     icons := fun key => key;
     rankIcon := fun _ level _ => level;
     kFormatter := fun v => match v with
                            | VNum n => Js.number_to_string n
                            | VStr s => s
                            end;
     measureText := fun _ => 200%R;
     toFixed2 := fun _ => "0.00"%string;
     Card_title := fun custom default =>
                     match custom with Some c => c | None => default end;
     currentYear := 2026%Z;
     NODE_ENV_test := false |}.

Definition sample_stats : StatsData :=
  {| name := "Anurag Hazra";
     totalStars := 100; totalCommits := 200; totalIssues := 300;
     totalPRs := 400; totalPRsMerged := 320; mergedPRsPercentage := 80%R;
     totalReviews := 50; totalDiscussionsStarted := 10;
     totalDiscussionsAnswered := 50; contributedTo := 500;
     rank := {| level := "A+"; percentile := 40%R |} |}.

(** Every canonical key hidden: no row survives. *)
Definition hide_everything : StatCardOptions :=
  with_show_hide [] canonical_keys default_options.

Definition with_show_icons (b : bool) (o : StatCardOptions)
  : StatCardOptions :=
  {| hide := hide o; show_icons := b; hide_title := hide_title o;
     hide_border := hide_border o; card_width := card_width o;
     hide_rank := hide_rank o;
     include_all_commits := include_all_commits o;
     line_height := line_height o; text_bold := text_bold o;
     custom_title := custom_title o; number_format := number_format o;
     locale := locale o; disable_animations := disable_animations o;
     rank_icon := rank_icon o; show := show o |}.

Definition with_line_height (l : string) (o : StatCardOptions)
  : StatCardOptions :=
  {| hide := hide o; show_icons := show_icons o; hide_title := hide_title o;
     hide_border := hide_border o; card_width := card_width o;
     hide_rank := hide_rank o;
     include_all_commits := include_all_commits o;
     line_height := l; text_bold := text_bold o;
     custom_title := custom_title o; number_format := number_format o;
     locale := locale o; disable_animations := disable_animations o;
     rank_icon := rank_icon o; show := show o |}.


(** The attributes [cx="-10"] and [r="40"] of the two [circle] elements
    of the rank circle group; the group is translated by the rank
    translation, so the circle is centred at the translation plus [cx]. *)
Definition rank_circle_cx : R := -10.
Definition rank_circle_r : R := 40.

(** The keys that are always included. *)
Definition always_keys : list string :=
  [ "stars"; "commits"; "prs"; "issues"; "contribs" ]%string.

(* ================================================================== *)
(** ** Objects and arrays *)

Module JsFacts.

Lemma set_Forall (A : Type) (P : string * A -> Prop) (o : Js.obj A) k v :
  Forall P o -> P (k, v) -> Forall P (Js.set o k v).
Proof.
  intros Ho Hkv. induction Ho as [| [k' v'] o' Hx Ho' IH]; simpl.
  - constructor; [exact Hkv | constructor].
  - destruct (String.eqb k' k); constructor; assumption.
Qed.

Lemma get_of_keys (A : Type) (o : Js.obj A) k :
  In k (Js.keys o) -> exists v, Js.get o k = Some v /\ In (k, v) o.
Proof.
  induction o as [| [k' v'] o' IH]; simpl; [intros [] |].
  intros Hin. destruct (String.eqb k' k) eqn:E.
  - apply String.eqb_eq in E. subst k'. exists v'. split; [reflexivity | now left].
  - destruct Hin as [Heq | Hin].
    + subst k'. rewrite String.eqb_refl in E. discriminate.
    + destruct (IH Hin) as [v [Hg Hv]]. exists v. split; [exact Hg | now right].
Qed.

(** Mapping with the index and then projecting is a plain map when the
    projection does not look at the index. *)
Lemma map_map_from (A B C : Type) (f : A -> nat -> B) (g : B -> C)
    (h : A -> C) a :
  (forall x i, In x a -> g (f x i) = h x) ->
  forall i, map g (Js.map_from f i a) = map h a.
Proof.
  induction a as [| x a' IH]; intros Hgf i; simpl; [reflexivity |].
  rewrite Hgf by now left.
  f_equal. apply IH. intros y j Hy. apply Hgf. now right.
Qed.

Lemma filter_filter (A : Type) (p q : A -> bool) l :
  filter q (filter p l) = filter (fun x => p x && q x) l.
Proof.
  induction l as [| x l' IH]; simpl; [reflexivity |].
  destruct (p x); simpl; [destruct (q x) |]; now rewrite IH.
Qed.

End JsFacts.

(* ================================================================== *)
(** ** Row selection *)

Section Selection.

Context {env : Collaborators}.
Variable stats : StatsData.
Variable options : StatCardOptions.

(** The keys of [STATS]: the canonical list without the optional rows
    that [show] does not name. *)
Lemma STATS_keys :
  Js.keys (STATS stats options) =
  filter (fun k => negb (Js.includes optional_keys k)
                   || Js.includes (show options) k)
         canonical_keys.
Proof.
  unfold canonical_keys. cbn [filter].
  repeat match goal with
  | |- context [Js.includes optional_keys ?k] =>
      let b := eval vm_compute in (Js.includes optional_keys k) in
      replace (Js.includes optional_keys k) with b by reflexivity
  end.
  cbn [negb orb].
  unfold STATS.
  destruct (Js.includes (show options) "prs_merged");
  destruct (Js.includes (show options) "prs_merged_percentage");
  destruct (Js.includes (show options) "reviews");
  destruct (Js.includes (show options) "discussions_started");
  destruct (Js.includes (show options) "discussions_answered");
  reflexivity.
Qed.

(** Every entry of [STATS] carries its own key as [id]. *)
Lemma STATS_ids :
  Forall (fun p => id (snd p) = fst p) (STATS stats options).
Proof.
  unfold STATS.
  repeat match goal with
  | |- Forall _ (if ?b then _ else _) => destruct b
  | |- Forall _ (Js.set _ _ _) =>
      apply JsFacts.set_Forall; [| reflexivity]
  | |- Forall _ [] => constructor
  end.
Qed.

Lemma STATS_at_id key :
  In key (Js.keys (STATS stats options)) ->
  id (STATS_at stats options key) = key.
Proof.
  intros Hin. unfold STATS_at.
  destruct (JsFacts.get_of_keys _ _ _ Hin) as [s [Hget Hs]].
  rewrite Hget.
  pose proof STATS_ids as Hall. rewrite Forall_forall in Hall.
  exact (Hall _ Hs).
Qed.

(** The keys that survive [hide], in the order of [Object.keys]. *)
Lemma visible_keys :
  filter (fun key => negb (Js.includes (hide options) key))
         (Js.keys (STATS stats options)) =
  selected_keys (show options) (hide options).
Proof.
  rewrite STATS_keys, JsFacts.filter_filter. reflexivity.
Qed.

Lemma statItems_ids :
  map tn_testid (statItems stats options) =
  selected_keys (show options) (hide options).
Proof.
  unfold statItems, Js.map_indexed.
  rewrite JsFacts.map_map_from with (h := fun key : string => key).
  - rewrite map_id. apply visible_keys.
  - intros key i Hin. cbn [createTextNode tn_testid].
    apply STATS_at_id.
    apply filter_In in Hin. tauto.
Qed.

Lemma statItems_length :
  List.length (statItems stats options) =
  List.length (selected_keys (show options) (hide options)).
Proof.
  rewrite <- statItems_ids. now rewrite length_map.
Qed.

End Selection.

(** C4. The rendered rows are the canonical list (stars, commits, prs,
    prs_merged, prs_merged_percentage, reviews, issues,
    discussions_started, discussions_answered, contribs) restricted to the
    keys that are always included or named in [show], and not named in
    [hide], in canonical order; the sequence is the same whatever the data
    and the collaborators answer, so it is determined by the options. *)
Theorem row_sequence_canonical :
  forall (env : Collaborators) (stats : StatsData) (options : StatCardOptions),
    map tn_testid (statItems stats options)
    = selected_keys (show options) (hide options)
    /\ forall (env' : Collaborators) (stats' : StatsData),
         map tn_testid (statItems (env := env') stats' options)
         = map tn_testid (statItems stats options).
Proof.
  intros env stats options. split.
  - apply statItems_ids.
  - intros env' stats'. now rewrite !statItems_ids.
Qed.

(* ================================================================== *)
(** ** The configuration error *)

(** C1. [renderStatsCard] answers with the [CustomError] exactly when no
    row survives the [show] / [hide] filters and [hide_rank] is set; in
    every other case it returns markup. *)
Theorem render_fails_iff_nothing_to_show :
  forall (env : Collaborators) (stats : StatsData) (options : StatCardOptions),
    let nothing :=
      selected_keys (show options) (hide options) = [] /\
      hide_rank options = true in
    ((exists e : CustomError, renderStatsCard stats options = inl e)
     <-> nothing)
    /\ ((exists m : Markup, renderStatsCard stats options = inr m)
        <-> ~ nothing).
Proof.
  intros env stats options nothing. subst nothing.
  rewrite <- statItems_ids with (stats := stats).
  unfold renderStatsCard.
  destruct (statItems stats options) as [| row rows] eqn:Hrows;
    destruct (hide_rank options); cbn.
  - split; split; try tauto.
    + intros _. eexists. reflexivity.
    + intros [m Hm]. discriminate.
  - split; split.
    + intros [e He]. discriminate.
    + intros [_ H]. discriminate.
    + intros _ [_ H]. discriminate.
    + intros _. eexists. reflexivity.
  - split; split.
    + intros [e He]. discriminate.
    + intros [H _]. discriminate.
    + intros _ [H _]. discriminate.
    + intros _. eexists. reflexivity.
  - split; split.
    + intros [e He]. discriminate.
    + intros [H _]. discriminate.
    + intros _ [H _]. discriminate.
    + intros _. eexists. reflexivity.
Qed.

(** Hiding every canonical key fails with [hide_rank], and renders
    without it. *)
Example hide_everything_and_rank (env : Collaborators) (stats : StatsData) :
  renderStatsCard stats (with_hide_rank true hide_everything)
  = inl {| message := "Could not render stats card.";
           secondaryMessage := "Either stats or rank are required." |}.
Proof. reflexivity. Qed.

Example hide_everything_keep_rank (env : Collaborators) (stats : StatsData) :
  exists m, renderStatsCard stats (with_hide_rank false hide_everything)
            = inr m /\ m_items m = [].
Proof. eexists. split; reflexivity. Qed.

(* ================================================================== *)
(** ** Height *)

Lemma mode_minimum_height (hide_rank : bool) (n : nat) :
  (if hide_rank then 0
   else if negb (n =? 0)%nat then 150 else 180)%Z
  = modeMinimumHeight hide_rank n.
Proof. destruct hide_rank, n; reflexivity. Qed.

(** C3. With [n] rows and a line height that reads as the number [L],
    the height is [max (45 + (n + 1) * L) m], where [m] is 0 with the rank
    hidden, 150 with the rank shown and rows present, 180 with the rank
    shown and no row; a card that is rendered carries this height. With
    the line height 25 and the rank shown, three rows give 150 and six
    rows give 220. *)
Theorem card_height_formula :
  forall (env : Collaborators) (stats : StatsData) (options : StatCardOptions)
         (L : Z),
    lheight options = Some L ->
    let n := List.length (statItems stats options) in
    let h := Z.max (45 + (Z.of_nat n + 1) * L)
                   (modeMinimumHeight (hide_rank options) n) in
    height stats options = Some h
    /\ (renderStatsCard stats options
        = inl {| message := "Could not render stats card.";
                 secondaryMessage := "Either stats or rank are required." |}
        \/ exists m, renderStatsCard stats options = inr m
                     /\ m_height m = Some h)
    /\ (hide_rank options = false /\ L = 25%Z /\ n = 3%nat -> h = 150%Z)
    /\ (hide_rank options = false /\ L = 25%Z /\ n = 6%nat -> h = 220%Z).
Proof.
  intros env stats options L HL n h.
  assert (Hh : height stats options = Some h).
  { unfold height. rewrite HL, mode_minimum_height. reflexivity. }
  split; [exact Hh |]. split.
  - unfold renderStatsCard.
    destruct ((List.length (statItems stats options) =? 0)%nat
              && hide_rank options).
    + now left.
    + right. eexists. split; [reflexivity | exact Hh].
  - subst h. split; intros (Hr & -> & Hn); rewrite Hr, Hn; reflexivity.
Qed.

(** Three rows at the default line height, rank shown. *)
Lemma card_height_formula_witness :
  lheight (with_show_hide [] ["issues"; "contribs"]%string default_options)
  = Some 25%Z
  /\ List.length
       (statItems (env := plain_collaborators) sample_stats
          (with_show_hide [] ["issues"; "contribs"]%string default_options))
     = 3%nat
  /\ height (env := plain_collaborators) sample_stats
       (with_show_hide [] ["issues"; "contribs"]%string default_options)
     = Some 150%Z.
Proof.
  split; [reflexivity |]. split; [reflexivity |].
  exact (proj1 (card_height_formula plain_collaborators sample_stats
                  (with_show_hide [] ["issues"; "contribs"]%string
                     default_options)
                  25%Z eq_refl)).
Defined.

(** Six rows at the default line height, rank shown. *)
Example six_rows_height (env : Collaborators) (stats : StatsData) :
  List.length
    (statItems stats (with_show_hide ["reviews"]%string [] default_options))
  = 6%nat
  /\ height stats (with_show_hide ["reviews"]%string [] default_options)
     = Some 220%Z.
Proof. split; reflexivity. Qed.

(** A line height that [parseInt] cannot read leaves the height [NaN]. *)
Lemma height_NaN (env : Collaborators) (stats : StatsData)
    (options : StatCardOptions) :
  lheight options = None -> height stats options = None.
Proof. intros H. unfold height. now rewrite H. Qed.

(* ================================================================== *)
(** ** Width *)

Local Open Scope R_scope.

Ltac unfold_widths :=
  unfold width, minCardWidth, defaultCardWidth, iconWidth, width_truthy,
    width_isNaN, clampValue_unbounded, Rmax, CARD_MIN_WIDTH,
    CARD_DEFAULT_WIDTH, RANK_CARD_MIN_WIDTH, RANK_CARD_DEFAULT_WIDTH,
    RANK_ONLY_CARD_MIN_WIDTH, RANK_ONLY_CARD_DEFAULT_WIDTH in *.

(** Decide every comparison of the width computation and finish by
    linear arithmetic. *)
Ltac split_widths :=
  repeat match goal with
  | |- context [Req_dec_T ?a ?b] => destruct (Req_dec_T a b)
  | |- context [Rle_dec ?a ?b] => destruct (Rle_dec a b)
  | |- context [if ?b then _ else _] =>
      match type of b with bool => destruct b end
  | |- context [Rlt_dec ?a ?b] => destruct (Rlt_dec a b)
  | |- context [Rgt_dec ?a ?b] => destruct (Rgt_dec a b)
  end;
  cbn [andb negb] in *; try lra.

Section Sizing.

Context {env : Collaborators}.
Variable stats : StatsData.
Variable options : StatCardOptions.

Lemma iconWidth_range :
  iconWidth stats options = 0 \/ iconWidth stats options = 17.
Proof. unfold iconWidth. destruct (_ && _); [right | left]; lra. Qed.

Lemma minCardWidth_floor : 287 <= minCardWidth stats options.
Proof.
  pose proof iconWidth_range as Hi.
  unfold minCardWidth, clampValue_unbounded, CARD_MIN_WIDTH,
    RANK_CARD_MIN_WIDTH, RANK_ONLY_CARD_MIN_WIDTH.
  destruct (hide_rank options).
  - pose proof (Rmax_l 287 (50 + calculateTextWidth stats options * 2)).
    destruct Hi as [-> | ->]; lra.
  - destruct (negb _); destruct Hi as [-> | ->]; lra.
Qed.

Lemma width_at_least_min : minCardWidth stats options <= width stats options.
Proof.
  unfold width.
  match goal with |- context [Rlt_dec ?a ?b] => destruct (Rlt_dec a b) end;
    lra.
Qed.

(** With the rank shown the default is at or above the minimum; with
    the rank hidden it is the other way round. *)
Lemma default_vs_min_rank_shown :
  hide_rank options = false ->
  minCardWidth stats options <= defaultCardWidth stats options.
Proof.
  intros Hr. unfold minCardWidth, defaultCardWidth. rewrite Hr.
  unfold RANK_CARD_MIN_WIDTH, RANK_CARD_DEFAULT_WIDTH,
    RANK_ONLY_CARD_MIN_WIDTH, RANK_ONLY_CARD_DEFAULT_WIDTH.
  destruct (negb _); lra.
Qed.

Lemma default_vs_min_rank_hidden :
  hide_rank options = true ->
  defaultCardWidth stats options <= minCardWidth stats options.
Proof.
  intros Hr. unfold minCardWidth, defaultCardWidth. rewrite Hr.
  unfold clampValue_unbounded, CARD_MIN_WIDTH, CARD_DEFAULT_WIDTH.
  pose proof (Rmax_l 287 (50 + calculateTextWidth stats options * 2)).
  lra.
Qed.

(** The width before the final comparison with the minimum. *)
Lemma width_of_number r :
  card_width options = WNumber r -> r <> 0 ->
  width stats options
  = if Rlt_dec r (minCardWidth stats options)
    then minCardWidth stats options else r.
Proof.
  intros Hw Hr. unfold width, width_truthy, width_isNaN. rewrite Hw.
  destruct (Req_dec_T r 0); [contradiction | reflexivity].
Qed.

Lemma width_of_default :
  width_truthy (card_width options) = false
  \/ width_isNaN (card_width options) = true ->
  width stats options
  = Rmax (defaultCardWidth stats options) (minCardWidth stats options).
Proof.
  intros H. unfold width.
  assert (Hd : (if width_truthy (card_width options)
                then if width_isNaN (card_width options)
                     then defaultCardWidth stats options
                     else match card_width options with
                          | WNumber r => r
                          | _ => defaultCardWidth stats options
                          end
                else defaultCardWidth stats options)
               = defaultCardWidth stats options).
  { destruct H as [-> | ->]; [reflexivity |].
    now destruct (width_truthy _). }
  rewrite Hd.
  destruct (Rlt_dec _ _) as [Hlt | Hge].
  - rewrite Rmax_right; lra.
  - rewrite Rmax_left; lra.
Qed.

End Sizing.

(** C2, as the code has it. A numeric [card_width] at or above the
    computed minimum is the final width; a numeric one below the minimum
    and different from 0 is raised to the minimum; a [card_width] that is
    0, absent or not numeric gives the mode's default width, raised to the
    minimum where the minimum is larger: that is the default itself in the
    two modes that show the rank, and the minimum in the mode that hides
    it. The final width is never below the minimum. *)
Theorem final_width_policy :
  forall (env : Collaborators) (stats : StatsData) (options : StatCardOptions),
    let min := minCardWidth stats options in
    let def := defaultCardWidth stats options in
    let w := width stats options in
    (forall r, card_width options = WNumber r -> min <= r -> w = r)
    /\ (forall r, card_width options = WNumber r -> r < min -> r <> 0 ->
                  w = min)
    /\ (card_width options = WNumber 0
        \/ card_width options = WUndefined
        \/ (exists b, card_width options = WNotNumeric b) ->
        w = Rmax def min
        /\ (hide_rank options = false -> w = def)
        /\ (hide_rank options = true -> w = min))
    /\ min <= w.
Proof.
  intros env stats options min def w. subst min def w.
  pose proof (minCardWidth_floor stats options) as Hfloor.
  repeat split.
  - intros r Hw Hr. rewrite (width_of_number stats options r Hw) by lra.
    destruct (Rlt_dec _ _); [lra | reflexivity].
  - intros r Hw Hr Hnz. rewrite (width_of_number stats options r Hw Hnz).
    destruct (Rlt_dec _ _); [reflexivity | lra].
  - apply width_of_default.
    destruct H as [-> | [-> | [b ->]]]; cbn.
    + left. destruct (Req_dec_T 0 0); [reflexivity | lra].
    + now left.
    + now right.
  - intros Hr. rewrite width_of_default.
    + apply Rmax_left. now apply default_vs_min_rank_shown.
    + destruct H as [-> | [-> | [b ->]]]; cbn.
      * left. destruct (Req_dec_T 0 0); [reflexivity | lra].
      * now left.
      * now right.
  - intros Hr. rewrite width_of_default.
    + apply Rmax_right. now apply default_vs_min_rank_hidden.
    + destruct H as [-> | [-> | [b ->]]]; cbn.
      * left. destruct (Req_dec_T 0 0); [reflexivity | lra].
      * now left.
      * now right.
  - apply width_at_least_min.
Qed.

(** Evaluation of the width computation at a concrete input. *)
Ltac count_rows :=
  rewrite ?statItems_length;
  repeat match goal with
  | |- context [List.length (selected_keys ?s ?h)] =>
      let n := eval vm_compute in (List.length (selected_keys s h)) in
      change (List.length (selected_keys s h)) with n
  end.

Ltac eval_widths :=
  unfold_widths; count_rows; unfold calculateTextWidth;
  cbn [hide_rank card_width show_icons custom_title with_card_width
       with_hide_rank with_show_hide with_locale default_options
       hide_everything
       Js.truthy_string measureText plain_collaborators Nat.eqb negb andb];
  split_widths.

(** C2 as stated fails in two places. The number 0 is below the minimum
    of 420 of a default card and yet the final width is the default 450,
    not the minimum. With the rank hidden and a title 200 wide, a
    [card_width] that is not numeric gives the minimum 450, not the mode's
    default 287. *)
Lemma final_width_counterexample :
  (card_width (with_card_width (WNumber 0) default_options) = WNumber 0
   /\ 0 < minCardWidth (env := plain_collaborators) sample_stats
            (with_card_width (WNumber 0) default_options)
   /\ minCardWidth (env := plain_collaborators) sample_stats
        (with_card_width (WNumber 0) default_options) = 420
   /\ width (env := plain_collaborators) sample_stats
        (with_card_width (WNumber 0) default_options) = 450
   /\ width (env := plain_collaborators) sample_stats
        (with_card_width (WNumber 0) default_options)
      <> minCardWidth (env := plain_collaborators) sample_stats
           (with_card_width (WNumber 0) default_options))
  /\
  (card_width (with_card_width (WNotNumeric true)
                 (with_hide_rank true default_options))
   = WNotNumeric true
   /\ defaultCardWidth (env := plain_collaborators) sample_stats
        (with_card_width (WNotNumeric true)
           (with_hide_rank true default_options)) = 287
   /\ width (env := plain_collaborators) sample_stats
        (with_card_width (WNotNumeric true)
           (with_hide_rank true default_options)) = 450
   /\ width (env := plain_collaborators) sample_stats
        (with_card_width (WNotNumeric true)
           (with_hide_rank true default_options))
      <> defaultCardWidth (env := plain_collaborators) sample_stats
           (with_card_width (WNotNumeric true)
              (with_hide_rank true default_options))).
Proof.
  split.
  - split; [reflexivity |]. repeat split; eval_widths.
  - split; [reflexivity |]. repeat split; eval_widths.
Qed.

(** The three outcomes on a default card: 500 is kept, 100 is raised to
    the minimum 420, and no [card_width] gives the default 450. *)
Lemma final_width_policy_witness :
  width (env := plain_collaborators) sample_stats
    (with_card_width (WNumber 500) default_options) = 500
  /\ width (env := plain_collaborators) sample_stats
       (with_card_width (WNumber 100) default_options)
     = minCardWidth (env := plain_collaborators) sample_stats
         (with_card_width (WNumber 100) default_options)
  /\ width (env := plain_collaborators) sample_stats
       (with_card_width WUndefined default_options)
     = defaultCardWidth (env := plain_collaborators) sample_stats
         (with_card_width WUndefined default_options).
Proof.
  split; [| split].
  - apply (proj1 (final_width_policy plain_collaborators sample_stats
                    (with_card_width (WNumber 500) default_options)));
      [reflexivity | eval_widths].
  - apply (proj1 (proj2 (final_width_policy plain_collaborators sample_stats
                    (with_card_width (WNumber 100) default_options)))
             100);
      [reflexivity | eval_widths | lra].
  - apply (proj1 (proj2 (proj2 (final_width_policy plain_collaborators
                    sample_stats
                    (with_card_width WUndefined default_options)))));
      [right; left; reflexivity | reflexivity].
Defined.

Lemma rows_present (env : Collaborators) (stats : StatsData)
    (options : StatCardOptions) :
  statItems stats options <> [] ->
  (List.length (statItems stats options) =? 0)%nat = false.
Proof. destruct (statItems stats options); [congruence | reflexivity]. Qed.

(** C9. The number 0 as [card_width] is treated as an absent one: the
    final width is the mode's default width, raised to the minimum where
    that is larger. On a card that shows the rank and has rows the
    default is 450 + iconWidth and the minimum 420 + iconWidth, so that 0
    gives the former and 1 the latter. *)
Theorem zero_width_is_absent :
  forall (env : Collaborators) (stats : StatsData) (options : StatCardOptions),
    let zero := with_card_width (WNumber 0) options in
    let one := with_card_width (WNumber 1) options in
    let absent := with_card_width WUndefined options in
    width stats zero = width stats absent
    /\ width stats zero
       = Rmax (defaultCardWidth stats zero) (minCardWidth stats zero)
    /\ (hide_rank options = false -> statItems stats options <> [] ->
        defaultCardWidth stats zero = 450 + iconWidth stats options
        /\ minCardWidth stats zero = 420 + iconWidth stats options
        /\ width stats zero = 450 + iconWidth stats options
        /\ width stats one = 420 + iconWidth stats options
        /\ width stats zero <> width stats one).
Proof.
  intros env stats options zero one absent.
  assert (Hzero : width stats zero
                  = Rmax (defaultCardWidth stats zero)
                         (minCardWidth stats zero)).
  { apply width_of_default. left. cbn.
    destruct (Req_dec_T 0 0); [reflexivity | lra]. }
  split; [| split].
  - rewrite Hzero. symmetry. apply (width_of_default stats absent).
    now left.
  - exact Hzero.
  - intros Hr Hrows. apply rows_present in Hrows.
    assert (Hdef : defaultCardWidth stats zero = 450 + iconWidth stats options).
    { change (defaultCardWidth stats zero)
        with (defaultCardWidth stats options).
      unfold defaultCardWidth, RANK_CARD_DEFAULT_WIDTH.
      rewrite Hr, Hrows. reflexivity. }
    assert (Hmin : minCardWidth stats zero = 420 + iconWidth stats options).
    { change (minCardWidth stats zero) with (minCardWidth stats options).
      unfold minCardWidth, RANK_CARD_MIN_WIDTH.
      rewrite Hr, Hrows. reflexivity. }
    assert (Hw0 : width stats zero = 450 + iconWidth stats options).
    { rewrite Hzero, Hdef, Hmin. apply Rmax_left. lra. }
    assert (Hw1 : width stats one = 420 + iconWidth stats options).
    { rewrite (width_of_number stats one 1) by (reflexivity || lra).
      change (minCardWidth stats one) with (minCardWidth stats zero).
      rewrite Hmin.
      pose proof (iconWidth_range stats options) as [-> | ->];
        destruct (Rlt_dec _ _); lra. }
    repeat split; try assumption.
    rewrite Hw0, Hw1. lra.
Qed.

(** A default card: 0 gives 450 and 1 gives 420. *)
Lemma zero_width_is_absent_witness :
  width (env := plain_collaborators) sample_stats
    (with_card_width (WNumber 0) default_options) = 450
  /\ width (env := plain_collaborators) sample_stats
       (with_card_width (WNumber 1) default_options) = 420.
Proof.
  destruct (proj2 (proj2 (zero_width_is_absent plain_collaborators
                            sample_stats default_options)))
    as (_ & _ & H0 & H1 & _).
  - reflexivity.
  - discriminate.
  - rewrite H0, H1. split; eval_widths.
Defined.

(** Without rows the default and the minimum are both 290: there 0 and 1
    give the same width. *)
Example rank_only_zero_and_one (env : Collaborators) (stats : StatsData) :
  width stats (with_card_width (WNumber 0) hide_everything) = 290
  /\ width stats (with_card_width (WNumber 1) hide_everything) = 290.
Proof. split; eval_widths. Qed.

(* ================================================================== *)
(** ** Placement of the rank indicator *)

(** C6. Without rows the rank indicator is translated by [width / 2 + 10].
    With rows, and [minXTranslation = 420 + iconWidth - 70], it is
    translated by [minXTranslation + (width - minCardWidth) / 2] when the
    final width is at most 450 and by
    [minXTranslation + (450 - minCardWidth) / 2 + (width - 450)] when it
    exceeds 450. A card that shows the rank carries this translation. *)
Theorem rank_translation_formula :
  forall (env : Collaborators) (stats : StatsData) (options : StatCardOptions),
    let w := width stats options in
    let min := minCardWidth stats options in
    let minXTranslation := 420 + iconWidth stats options - 70 in
    let x := calculateRankXTranslation stats options in
    (statItems stats options = [] -> x = w / 2 + 10)
    /\ (statItems stats options <> [] -> w <= 450 ->
        x = minXTranslation + (w - min) / 2)
    /\ (statItems stats options <> [] -> w > 450 ->
        x = minXTranslation + (450 - min) / 2 + (w - 450))
    /\ (hide_rank options = false ->
        exists m c, renderStatsCard stats options = inr m
                    /\ m_rankCircle m = Some c
                    /\ rc_x c = x).
Proof.
  intros env stats options w min minXTranslation x.
  subst w min minXTranslation x.
  unfold calculateRankXTranslation, RANK_CARD_MIN_WIDTH,
    RANK_CARD_DEFAULT_WIDTH.
  split; [| split; [| split]].
  - intros ->. cbn. lra.
  - intros Hrows Hw. rewrite (rows_present _ _ _ Hrows). cbn [negb].
    destruct (Rgt_dec _ _); lra.
  - intros Hrows Hw. rewrite (rows_present _ _ _ Hrows). cbn [negb].
    destruct (Rgt_dec _ _); lra.
  - intros Hr. unfold renderStatsCard, rankCircle. rewrite Hr.
    rewrite andb_false_r. eexists. eexists.
    split; [reflexivity |]. split; reflexivity.
Qed.

(** A default card 500 wide: the indicator sits at 350 + 15 + 50. *)
Lemma rank_translation_formula_witness :
  statItems (env := plain_collaborators) sample_stats
    (with_card_width (WNumber 500) default_options) <> []
  /\ width (env := plain_collaborators) sample_stats
       (with_card_width (WNumber 500) default_options) > 450
  /\ calculateRankXTranslation (env := plain_collaborators) sample_stats
       (with_card_width (WNumber 500) default_options) = 415.
Proof.
  assert (Hrows : statItems (env := plain_collaborators) sample_stats
                    (with_card_width (WNumber 500) default_options) <> [])
    by discriminate.
  assert (Hw : width (env := plain_collaborators) sample_stats
                 (with_card_width (WNumber 500) default_options) > 450)
    by eval_widths.
  split; [exact Hrows |]. split; [exact Hw |].
  rewrite (proj1 (proj2 (proj2 (rank_translation_formula plain_collaborators
                    sample_stats
                    (with_card_width (WNumber 500) default_options))))
             Hrows Hw).
  eval_widths.
Defined.

(* ================================================================== *)
(** ** The locale shift *)

Section LocaleShift.

Context {env : Collaborators}.
Variable stats : StatsData.
Variable options : StatCardOptions.

(** The position of the value text of every row. *)
Lemma statItems_x :
  map tn_x (statItems stats options)
  = map (fun _ : string =>
           (if show_icons options then 140 else 120)
           + (7901 / 100 + (if isLongLocale options then 50 else 0)))
        (selected_keys (show options) (hide options)).
Proof.
  unfold statItems, Js.map_indexed.
  rewrite JsFacts.map_map_from
    with (h := fun _ : string =>
                 (if show_icons options then 140 else 120)
                 + (7901 / 100
                    + (if isLongLocale options then 50 else 0))).
  - now rewrite visible_keys.
  - reflexivity.
Qed.

Lemma long_locale_is_long (l : string) :
  In l longLocales -> isLongLocale (with_locale (Some l) options) = true.
Proof.
  intros Hin. unfold isLongLocale. cbn [locale with_locale].
  assert (Hinc : Js.includes longLocales l = true).
  { unfold Js.includes. apply existsb_exists. exists l.
    split; [exact Hin | apply String.eqb_refl]. }
  rewrite Hinc.
  destruct l; [| reflexivity].
  discriminate.
Qed.

Lemma other_locale_is_short (l : option string) :
  (forall l', l = Some l' -> ~ In l' longLocales) ->
  isLongLocale (with_locale l options) = false.
Proof.
  intros Hout. unfold isLongLocale. cbn [locale with_locale].
  destruct l as [l' |]; [| reflexivity].
  destruct (Js.includes longLocales l') eqn:Hinc.
  - exfalso. apply (Hout l' eq_refl).
    unfold Js.includes in Hinc. apply existsb_exists in Hinc.
    destruct Hinc as [x [Hx Heq]]. apply String.eqb_eq in Heq.
    now subst x.
  - now destruct (Js.truthy_string (Some l')).
Qed.

End LocaleShift.

(** C7. Two renders of the same data whose options differ in the locale
    only, one locale of the long-label list and the other not (or
    absent): the rows are the same, every value text of the first lies
    exactly 50 to the right of the same row's in the second, and within a
    render all rows share one position, 120 + 79.01 (140 + 79.01 with
    icons) plus the shift. *)
Theorem locale_shift_is_fifty :
  forall (env : Collaborators) (stats : StatsData) (options : StatCardOptions)
         (long : string) (other : option string),
    In long longLocales ->
    (forall l, other = Some l -> ~ In l longLocales) ->
    let rowsLong := statItems stats (with_locale (Some long) options) in
    let rowsOther := statItems stats (with_locale other options) in
    let base := (if show_icons options then 140 else 120) + 7901 / 100 in
    map tn_testid rowsLong = map tn_testid rowsOther
    /\ map tn_x rowsLong = map (fun row => tn_x row + 50) rowsOther
    /\ Forall (fun row => tn_x row = base) rowsOther
    /\ Forall (fun row => tn_x row = base + 50) rowsLong.
Proof.
  intros env stats options long other Hlong Hother rowsLong rowsOther base.
  subst rowsLong rowsOther base.
  pose proof (statItems_x stats (with_locale (Some long) options)) as HxL.
  pose proof (statItems_x stats (with_locale other options)) as HxO.
  rewrite (long_locale_is_long options long Hlong) in HxL.
  rewrite (other_locale_is_short options other Hother) in HxO.
  cbn [show hide show_icons with_locale] in HxL, HxO.
  assert (Hids : map tn_testid (statItems stats (with_locale (Some long) options))
                 = map tn_testid (statItems stats (with_locale other options))).
  { now rewrite !statItems_ids. }
  split; [exact Hids |]. split; [| split].
  - rewrite HxL.
    rewrite <- (map_map tn_x (fun x => x + 50)), HxO, map_map.
    apply map_ext. intros _. lra.
  - rewrite Forall_forall. intros row Hrow.
    apply (in_map tn_x) in Hrow. rewrite HxO in Hrow.
    apply in_map_iff in Hrow. destruct Hrow as [k [Hk _]]. lra.
  - rewrite Forall_forall. intros row Hrow.
    apply (in_map tn_x) in Hrow. rewrite HxL in Hrow.
    apply in_map_iff in Hrow. destruct Hrow as [k [Hk _]]. lra.
Qed.

(** French against English on a default card: 249.01 against 199.01 on
    each of the five rows. *)
Lemma locale_shift_is_fifty_witness :
  map tn_x (statItems (env := plain_collaborators) sample_stats
              (with_locale (Some "fr"%string) default_options))
  = map (fun row => tn_x row + 50)
        (statItems (env := plain_collaborators) sample_stats
           (with_locale (Some "en"%string) default_options)).
Proof.
  apply (proj1 (proj2 (locale_shift_is_fifty plain_collaborators sample_stats
                         default_options "fr"%string (Some "en"%string)
                         ltac:(cbv; tauto)
                         ltac:(intros l [= <-]; cbv;
                               intuition discriminate)))).
Defined.

(* ================================================================== *)
(** ** The accessibility description *)

Module A11y.

Local Open Scope string_scope.

Lemma in_map_from (A B : Type) (f : A -> nat -> B) (a : list A) (y : B) :
  forall i, In y (Js.map_from f i a) ->
            exists x j, In x a /\ y = f x j.
Proof.
  induction a as [| x a' IH]; intros i Hin; simpl in Hin; [contradiction |].
  destruct Hin as [<- | Hin].
  - exists x, i. split; [now left | reflexivity].
  - destruct (IH _ Hin) as [x' [j [Hx' ->]]].
    exists x', j. split; [now right | reflexivity].
Qed.

(** A row shows the label of the [STATS] entry of its key. *)
Lemma row_of_key {env : Collaborators} (stats : StatsData)
    (options : StatCardOptions) (row : TextNode) :
  In row (statItems stats options) ->
  tn_label row = label (STATS_at stats options (tn_testid row)).
Proof.
  intros Hin. unfold statItems, Js.map_indexed in Hin.
  apply in_map_from in Hin. destruct Hin as [key [j [Hkey ->]]].
  cbn [createTextNode tn_label tn_testid].
  rewrite STATS_at_id; [reflexivity |].
  apply filter_In in Hkey. tauto.
Qed.

Lemma commits_value {env : Collaborators} (stats : StatsData)
    (options : StatCardOptions) :
  value (STATS_at stats options "commits") = VNum (totalCommits stats).
Proof.
  unfold STATS_at, STATS.
  destruct (Js.includes (show options) "prs_merged");
  destruct (Js.includes (show options) "prs_merged_percentage");
  destruct (Js.includes (show options) "reviews");
  destruct (Js.includes (show options) "discussions_started");
  destruct (Js.includes (show options) "discussions_answered");
  reflexivity.
Qed.

End A11y.

(** C8. The description joins, with [", "], one entry per visible row in
    the order of the rows. The entry of a row other than the commits is
    the row's label, [": "] and the value. The entry of the commits is
    the translated commits label followed by [" in <year> : "] and the
    value when [include_all_commits] is off, the year being the current
    calendar year, and by ["  : "] and the value when it is on. A card
    that is rendered carries this description next to these rows. *)
Theorem description_follows_rows :
  forall (env : Collaborators) (stats : StatsData) (options : StatCardOptions),
    let entry row := label_of stats options (tn_testid row) in
    let commits := Js.number_to_string (totalCommits stats) in
    labels stats options
    = Js.join ", " (map entry (statItems stats options))
    /\ (forall row,
          In row (statItems stats options) ->
          tn_testid row <> "commits"%string ->
          entry row
          = (tn_label row ++ ": " ++
             value_to_string
               (value (STATS_at stats options (tn_testid row))))%string)
    /\ (include_all_commits options = false ->
        label_of stats options "commits"
        = (t stats options "statcard.commits" ++ " in " ++
           Js.number_to_string currentYear ++ " : " ++ commits)%string)
    /\ (include_all_commits options = true ->
        label_of stats options "commits"
        = (t stats options "statcard.commits" ++ "  : " ++ commits)%string)
    /\ (forall m, renderStatsCard stats options = inr m ->
                  m_a11y_desc m = Js.join ", " (map entry (m_items m))).
Proof.
  intros env stats options entry commits. subst entry commits.
  assert (Hdesc : labels stats options
                  = Js.join ", "
                      (map (fun row => label_of stats options (tn_testid row))
                           (statItems stats options))).
  { unfold labels.
    rewrite <- (map_map tn_testid (label_of stats options)).
    now rewrite statItems_ids, visible_keys. }
  split; [exact Hdesc |]. split; [| split; [| split]].
  - intros row Hin Hkey. unfold label_of.
    apply String.eqb_neq in Hkey. rewrite Hkey.
    now rewrite (A11y.row_of_key stats options row Hin).
  - intros Hall. unfold label_of. cbn [String.eqb Ascii.eqb Bool.eqb].
    rewrite Hall, A11y.commits_value. reflexivity.
  - intros Hall. unfold label_of. cbn [String.eqb Ascii.eqb Bool.eqb].
    rewrite Hall, A11y.commits_value. reflexivity.
  - intros m Hm. unfold renderStatsCard in Hm.
    destruct (_ && _); [discriminate |].
    injection Hm as <-. exact Hdesc.
Qed.

(** The description of a default card in 2026. *)
Lemma description_follows_rows_witness :
  label_of (env := plain_collaborators) sample_stats default_options
    "commits"
  = "statcard.commits in 2026 : 200"%string
  /\ labels (env := plain_collaborators) sample_stats default_options
     = ("statcard.totalstars: 100, statcard.commits in 2026 : 200, "
        ++ "statcard.prs: 400, statcard.issues: 300, "
        ++ "statcard.contribs: 500")%string.
Proof.
  split.
  - rewrite (proj1 (proj2 (proj2 (description_follows_rows
               plain_collaborators sample_stats default_options)))
               eq_refl).
    reflexivity.
  - rewrite (proj1 (description_follows_rows plain_collaborators
               sample_stats default_options)).
    reflexivity.
Defined.

(* ================================================================== *)
(** ** The progress arc *)

Module Arc.

Lemma circumference_pos : 0 < circumference.
Proof. unfold circumference. pose proof PI_RGT_0. lra. Qed.

(** The two overwrites of [value] amount to a clamp. *)
Lemma clamped (v : R) :
  calculateCircleProgress v
  = (100 - clamp v 0 100) / 100 * (PI * (40 * 2)).
Proof.
  unfold calculateCircleProgress, clamp, Rmax, Rmin. cbv zeta.
  destruct (Rlt_dec v 0) as [Hneg | Hpos].
  - destruct (Rgt_dec 0 100); [lra |].
    destruct (Rle_dec v 100); [| lra].
    destruct (Rle_dec 0 v); [| reflexivity].
    replace v with 0 by lra. reflexivity.
  - destruct (Rgt_dec v 100) as [Hbig | Hsmall].
    + destruct (Rle_dec v 100); [lra |].
      destruct (Rle_dec 0 100); [reflexivity | lra].
    + destruct (Rle_dec v 100); [| lra].
      destruct (Rle_dec 0 v); [reflexivity | lra].
Qed.

Lemma clamp_range (v : R) : 0 <= clamp v 0 100 <= 100.
Proof.
  unfold clamp, Rmax, Rmin.
  destruct (Rle_dec v 100); destruct (Rle_dec 0 _); lra.
Qed.

Lemma clamp_monotone (v1 v2 : R) :
  v1 <= v2 -> clamp v1 0 100 <= clamp v2 0 100.
Proof.
  intros H. unfold clamp, Rmax, Rmin.
  destruct (Rle_dec v1 100); destruct (Rle_dec v2 100);
    repeat match goal with
    | |- context [Rle_dec ?a ?b] => destruct (Rle_dec a b)
    end; lra.
Qed.

Lemma as_offsetAt (v : R) : calculateCircleProgress v = offsetAt v.
Proof. rewrite clamped. unfold offsetAt, circumference. lra. Qed.

Lemma range (v : R) : 0 <= calculateCircleProgress v <= circumference.
Proof.
  rewrite as_offsetAt. unfold offsetAt.
  pose proof (clamp_range v) as Hc. pose proof circumference_pos as HC.
  set (x := (100 - clamp v 0 100) / 100).
  assert (0 <= x <= 1) as [Hx0 Hx1] by (subst x; lra).
  split; nra.
Qed.

(** More progress, less offset. *)
Lemma antitone (v1 v2 : R) :
  v1 <= v2 -> calculateCircleProgress v2 <= calculateCircleProgress v1.
Proof.
  intros H. rewrite !as_offsetAt. unfold offsetAt.
  pose proof (clamp_monotone v1 v2 H) as Hc.
  pose proof circumference_pos as HC.
  apply Rmult_le_compat_r; lra.
Qed.

End Arc.

(** C5. With [progress = 100 - percentile] and [C = 2 * PI * 40], the arc
    offset is [((100 - clamp v 0 100) / 100) * C] at every [v]; of two
    percentiles the smaller has the smaller or equal offset, and the
    percentiles -10 and 150, outside of [0, 100], have the offsets of 0
    and of 100. *)
Theorem arc_offset_clamped_and_monotone :
  (forall v : R, calculateCircleProgress v = offsetAt v)
  /\ (forall s1 s2 : StatsData,
        percentile (rank s1) < percentile (rank s2) ->
        calculateCircleProgress (progress s1)
        <= calculateCircleProgress (progress s2))
  /\ (forall p1 p2 : R,
        p1 < p2 ->
        calculateCircleProgress (100 - p1)
        <= calculateCircleProgress (100 - p2))
  /\ calculateCircleProgress (100 - -10) = calculateCircleProgress (100 - 0)
  /\ calculateCircleProgress (100 - -10) = 0
  /\ calculateCircleProgress (100 - 150) = calculateCircleProgress (100 - 100)
  /\ calculateCircleProgress (100 - 150) = circumference.
Proof.
  split; [exact Arc.as_offsetAt |].
  split; [| split].
  - intros s1 s2 H. unfold progress. apply Arc.antitone. lra.
  - intros p1 p2 H. apply Arc.antitone. lra.
  - rewrite !Arc.clamped. unfold clamp, Rmax, Rmin, circumference.
    repeat match goal with
    | |- context [Rle_dec ?a 100] => destruct (Rle_dec a 100)
    | |- context [Rle_dec 0 ?b] => destruct (Rle_dec 0 b)
    end; repeat split; lra.
Qed.

(** The percentiles 0 and 50: offsets 0 and half of the circumference. *)
Lemma arc_offset_clamped_and_monotone_witness :
  calculateCircleProgress (100 - 0) <= calculateCircleProgress (100 - 50)
  /\ calculateCircleProgress (100 - 50) = circumference / 2.
Proof.
  split.
  - apply (proj1 (proj2 (proj2 arc_offset_clamped_and_monotone)) 0 50). lra.
  - rewrite (proj1 arc_offset_clamped_and_monotone).
    unfold offsetAt, clamp, Rmax, Rmin, circumference.
    repeat match goal with
    | |- context [Rle_dec ?a 100] => destruct (Rle_dec a 100)
    | |- context [Rle_dec 0 ?b] => destruct (Rle_dec 0 b)
    end; lra.
Defined.

(** C10. At every real [v] the result of [calculateCircleProgress] lies
    between 0 and [2 * PI * 40]; below 0 it is the result at 0, above 100
    the result at 100. Both offsets of the keyframes, hence those of the
    style block of a rendered card, lie in that interval. *)
Theorem arc_offset_within_circumference :
  (forall v : R, 0 <= calculateCircleProgress v <= 2 * PI * 40)
  /\ (forall v : R, v < 0 ->
                    calculateCircleProgress v = calculateCircleProgress 0)
  /\ (forall v : R, v > 100 ->
                    calculateCircleProgress v = calculateCircleProgress 100)
  /\ (forall p : R,
        0 <= fst (getProgressAnimation p) <= 2 * PI * 40
        /\ 0 <= snd (getProgressAnimation p) <= 2 * PI * 40)
  /\ (forall (env : Collaborators) (stats : StatsData)
             (options : StatCardOptions) (m : Markup) (from to : R),
        renderStatsCard stats options = inr m ->
        m_keyframes m = Some (from, to) ->
        0 <= from <= 2 * PI * 40 /\ 0 <= to <= 2 * PI * 40).
Proof.
  split; [exact Arc.range |]. split; [| split; [| split]].
  - intros v Hv. unfold calculateCircleProgress. cbv zeta.
    destruct (Rlt_dec v 0); [| lra].
    destruct (Rlt_dec 0 0); [lra | reflexivity].
  - intros v Hv. unfold calculateCircleProgress. cbv zeta.
    destruct (Rlt_dec v 0); [lra |].
    destruct (Rlt_dec 100 0); [lra |].
    destruct (Rgt_dec v 100); [| lra].
    destruct (Rgt_dec 100 100); [lra | reflexivity].
  - intros p. cbn [getProgressAnimation fst snd].
    split; apply Arc.range.
  - intros env stats options m from to Hm Hk.
    unfold renderStatsCard in Hm.
    destruct (_ && _); [discriminate |].
    injection Hm as <-. cbn [m_keyframes] in Hk.
    unfold cssStyles, getStyles in Hk.
    destruct NODE_ENV_test; [discriminate |].
    injection Hk as <- <-. split; apply Arc.range.
Qed.

(** Progress -50 and 150: the offsets at 0 and at 100; and the keyframes
    of a default card. *)
Lemma arc_offset_within_circumference_witness :
  calculateCircleProgress (-50) = calculateCircleProgress 0
  /\ calculateCircleProgress 150 = calculateCircleProgress 100
  /\ exists m from to,
       renderStatsCard (env := plain_collaborators) sample_stats
         default_options = inr m
       /\ m_keyframes m = Some (from, to)
       /\ 0 <= to <= 2 * PI * 40.
Proof.
  split; [| split].
  - apply (proj1 (proj2 arc_offset_within_circumference)). lra.
  - apply (proj1 (proj2 (proj2 arc_offset_within_circumference))). lra.
  - eexists. eexists. eexists.
    split; [reflexivity |]. split; [reflexivity |].
    apply (proj2 (proj2 (proj2 (proj2 arc_offset_within_circumference)))
             plain_collaborators sample_stats default_options _ _ _
             eq_refl eq_refl).
Defined.

(* ================================================================== *)
(** ** Further properties: the rows *)

Module Rows.

Lemma includes_In (a : list string) (x : string) :
  Js.includes a x = true <-> In x a.
Proof.
  unfold Js.includes. rewrite existsb_exists. split.
  - intros [y [Hy Heq]]. apply String.eqb_eq in Heq. now subst y.
  - intros Hin. exists x. split; [exact Hin | apply String.eqb_refl].
Qed.

Lemma includes_not_In (a : list string) (x : string) :
  Js.includes a x = false <-> ~ In x a.
Proof.
  rewrite <- includes_In. destruct (Js.includes a x); split;
    congruence.
Qed.

(** What [map] sees of an indexed map when it only looks at the index. *)
Lemma map_from_index (A B C : Type) (f : A -> nat -> B) (g : B -> C)
    (h : nat -> C) (a : list A) :
  (forall x i, g (f x i) = h i) ->
  forall i, map g (Js.map_from f i a) = map h (seq i (List.length a)).
Proof.
  intros Hgf. induction a as [| x a' IH]; intros i; simpl; [reflexivity |].
  now rewrite Hgf, IH.
Qed.

Lemma canonical_NoDup : NoDup canonical_keys.
Proof.
  unfold canonical_keys.
  repeat (constructor; [cbn; intuition discriminate |]).
  constructor.
Qed.

Lemma selected_In (show hide : list string) (k : string) :
  In k (selected_keys show hide) <->
  In k canonical_keys
  /\ (In k optional_keys -> In k show)
  /\ ~ In k hide.
Proof.
  unfold selected_keys. rewrite filter_In, andb_true_iff, orb_true_iff,
    !negb_true_iff, includes_In, !includes_not_In.
  split.
  - intros [Hc [[Ho | Hs] Hh]]; repeat split; tauto.
  - intros [Hc [Hs Hh]]. repeat split; try assumption.
    destruct (Js.includes optional_keys k) eqn:E.
    + right. apply Hs. now apply includes_In.
    + left. now apply includes_not_In.
Qed.

End Rows.

(** X1. The row at position [i], counted from 0 among the rows that are
    shown, fades in after [(i + 3) * 150] milliseconds: a hidden row
    leaves no gap in the cascade. *)
Theorem stagger_delays_follow_position :
  forall (env : Collaborators) (stats : StatsData) (options : StatCardOptions),
    map tn_staggerDelay (statItems stats options)
    = map (fun i => ((Z.of_nat i + 3) * 150)%Z)
          (seq 0 (List.length (statItems stats options))).
Proof.
  intros env stats options.
  rewrite statItems_length, <- visible_keys with (stats := stats).
  unfold statItems, Js.map_indexed.
  apply Rows.map_from_index. reflexivity.
Qed.

(** X2. No key has two rows, there are at most ten rows, and a key named in
    [hide] has no row even when [show] names it too. *)
Theorem rows_unique_bounded_and_not_hidden :
  forall (env : Collaborators) (stats : StatsData) (options : StatCardOptions),
    NoDup (map tn_testid (statItems stats options))
    /\ (List.length (statItems stats options) <= 10)%nat
    /\ Forall (fun row => ~ In (tn_testid row) (hide options))
              (statItems stats options).
Proof.
  intros env stats options. split; [| split].
  - rewrite statItems_ids. apply NoDup_filter, Rows.canonical_NoDup.
  - rewrite statItems_length. unfold selected_keys.
    etransitivity; [apply filter_length_le | reflexivity].
  - rewrite Forall_forall. intros row Hrow.
    apply (in_map tn_testid) in Hrow. rewrite statItems_ids in Hrow.
    apply Rows.selected_In in Hrow. tauto.
Qed.

(** X3. No row is left exactly when every canonical key is named in [hide]
    or is an optional key that [show] does not name; in particular the
    five always-included keys are then all hidden. *)
Theorem no_rows_iff_all_hidden :
  forall (env : Collaborators) (stats : StatsData) (options : StatCardOptions),
    (statItems stats options = [] <->
     forall k, In k canonical_keys ->
               In k (hide options)
               \/ (In k optional_keys /\ ~ In k (show options)))
    /\ (statItems stats options = [] ->
        forall k, In k always_keys -> In k (hide options)).
Proof.
  intros env stats options.
  assert (Hiff : statItems stats options = [] <->
                 forall k, In k canonical_keys ->
                           In k (hide options)
                           \/ (In k optional_keys /\ ~ In k (show options))).
  { split.
    - intros Hnil k Hk.
      assert (Hout : ~ In k (selected_keys (show options) (hide options))).
      { rewrite <- statItems_ids with (stats := stats), Hnil. intros []. }
      rewrite Rows.selected_In in Hout.
      destruct (Js.includes (hide options) k) eqn:Hh.
      + left. now apply Rows.includes_In.
      + apply Rows.includes_not_In in Hh. right.
        destruct (Js.includes optional_keys k) eqn:Ho.
        * apply Rows.includes_In in Ho. split; [exact Ho |].
          intros Hs. apply Hout. repeat split; tauto.
        * apply Rows.includes_not_In in Ho. exfalso. apply Hout.
          repeat split; tauto.
    - intros Hall.
      destruct (statItems stats options) as [| row rows] eqn:Hrows;
        [reflexivity | exfalso].
      assert (Hin : In (tn_testid row)
                       (selected_keys (show options) (hide options))).
      { rewrite <- statItems_ids with (stats := stats), Hrows. now left. }
      apply Rows.selected_In in Hin. destruct Hin as (Hc & Hs & Hh).
      destruct (Hall _ Hc) as [H | [Ho Hn]]; tauto. }
  split; [exact Hiff |].
  intros Hnil k Hk. apply Hiff with (k := k) in Hnil.
  - destruct Hnil as [H | [Ho _]]; [exact H | exfalso].
    cbv in Hk, Ho.
    repeat match goal with
    | H : _ \/ _ |- _ => destruct H
    | H : False |- _ => destruct H
    end; subst; discriminate.
  - cbv in Hk |- *. tauto.
Qed.

(** Hiding the five always-included keys with nothing in [show]. *)
Lemma no_rows_iff_all_hidden_witness :
  statItems (env := plain_collaborators) sample_stats
    (with_show_hide [] always_keys default_options) = []
  /\ In "stars"%string always_keys.
Proof.
  assert (Hnil : statItems (env := plain_collaborators) sample_stats
                   (with_show_hide [] always_keys default_options) = [])
    by reflexivity.
  split; [exact Hnil |].
  pose proof (proj2 (no_rows_iff_all_hidden plain_collaborators sample_stats
                       (with_show_hide [] always_keys default_options))
                Hnil "stars"%string) as H.
  cbn [hide with_show_hide] in H. apply H. cbv. tauto.
Defined.

(** *** Only membership of the canonical keys in [show] and [hide] counts *)

Section SameSelection.

Context {env : Collaborators}.
Variable stats : StatsData.
Variable options : StatCardOptions.
Variables sh hi : list string.
Hypothesis same_show :
  forall k, In k optional_keys -> (In k sh <-> In k (show options)).
Hypothesis same_hide :
  forall k, In k canonical_keys -> (In k hi <-> In k (hide options)).

Lemma same_show_includes k :
  In k optional_keys -> Js.includes sh k = Js.includes (show options) k.
Proof.
  intros Hk. specialize (same_show k Hk).
  destruct (Js.includes (show options) k) eqn:E.
  - apply Rows.includes_In. apply Rows.includes_In in E. tauto.
  - apply Rows.includes_not_In. apply Rows.includes_not_In in E. tauto.
Qed.

Lemma same_STATS :
  STATS stats (with_show_hide sh hi options) = STATS stats options.
Proof.
  unfold STATS. cbn [show with_show_hide].
  rewrite !same_show_includes by (cbv; tauto).
  reflexivity.
Qed.

Lemma same_visible_keys :
  filter (fun key => negb (Js.includes hi key))
         (Js.keys (STATS stats options))
  = filter (fun key => negb (Js.includes (hide options) key))
           (Js.keys (STATS stats options)).
Proof.
  apply filter_ext_in. intros k Hk.
  rewrite STATS_keys in Hk. apply filter_In in Hk. destruct Hk as [Hk _].
  specialize (same_hide k Hk). f_equal.
  destruct (Js.includes (hide options) k) eqn:E.
  - apply Rows.includes_In. apply Rows.includes_In in E. tauto.
  - apply Rows.includes_not_In. apply Rows.includes_not_In in E. tauto.
Qed.

Lemma same_statItems :
  statItems stats (with_show_hide sh hi options) = statItems stats options.
Proof.
  unfold statItems, STATS_at. cbn [hide with_show_hide].
  rewrite same_STATS, same_visible_keys. reflexivity.
Qed.

Lemma same_labels :
  labels stats (with_show_hide sh hi options) = labels stats options.
Proof.
  unfold labels, label_of, STATS_at. cbn [hide with_show_hide].
  rewrite same_STATS, same_visible_keys. reflexivity.
Qed.

Lemma same_height :
  height stats (with_show_hide sh hi options) = height stats options.
Proof. unfold height. rewrite same_statItems. reflexivity. Qed.

Lemma same_defaultTitle :
  defaultTitle stats (with_show_hide sh hi options)
  = defaultTitle stats options.
Proof. unfold defaultTitle. rewrite same_statItems. reflexivity. Qed.

Lemma same_minCardWidth :
  minCardWidth stats (with_show_hide sh hi options)
  = minCardWidth stats options.
Proof.
  unfold minCardWidth, calculateTextWidth, iconWidth.
  rewrite same_statItems, same_defaultTitle. reflexivity.
Qed.

Lemma same_defaultCardWidth :
  defaultCardWidth stats (with_show_hide sh hi options)
  = defaultCardWidth stats options.
Proof.
  unfold defaultCardWidth, iconWidth. rewrite same_statItems. reflexivity.
Qed.

Lemma same_width :
  width stats (with_show_hide sh hi options) = width stats options.
Proof.
  unfold width. rewrite same_minCardWidth, same_defaultCardWidth.
  reflexivity.
Qed.

Lemma same_rankCircle :
  rankCircle stats (with_show_hide sh hi options) = rankCircle stats options.
Proof.
  unfold rankCircle, calculateRankXTranslation, iconWidth.
  rewrite same_statItems, same_width, same_minCardWidth, same_height.
  reflexivity.
Qed.

End SameSelection.

(** X4. Two option records that differ in [show] and [hide] only, and whose
    [show] name the same optional keys and whose [hide] name the same
    canonical keys, render the same card or fail alike: order, repetition
    and unknown keys in the two arrays have no effect. *)
Theorem render_depends_on_key_membership :
  forall (env : Collaborators) (stats : StatsData) (options : StatCardOptions)
         (sh hi : list string),
    (forall k, In k optional_keys -> (In k sh <-> In k (show options))) ->
    (forall k, In k canonical_keys -> (In k hi <-> In k (hide options))) ->
    renderStatsCard stats (with_show_hide sh hi options)
    = renderStatsCard stats options.
Proof.
  intros env stats options sh hi Hshow Hhide.
  unfold renderStatsCard.
  rewrite (same_statItems stats options sh hi Hshow Hhide),
    (same_labels stats options sh hi Hshow Hhide),
    (same_height stats options sh hi Hshow Hhide),
    (same_defaultTitle stats options sh hi Hshow Hhide),
    (same_width stats options sh hi Hshow Hhide),
    (same_rankCircle stats options sh hi Hshow Hhide).
  reflexivity.
Qed.

(** [show] with a repeated and an unknown key, [hide] with an unknown
    key, against the plain arrays. *)
Lemma render_depends_on_key_membership_witness :
  renderStatsCard (env := plain_collaborators) sample_stats
    (with_show_hide ["reviews"; "stargazers"; "reviews"]%string
                    ["issues"; "forks"]%string
       (with_show_hide ["reviews"]%string ["issues"]%string default_options))
  = renderStatsCard (env := plain_collaborators) sample_stats
      (with_show_hide ["reviews"]%string ["issues"]%string default_options).
Proof.
  apply render_depends_on_key_membership.
  - intros k Hk. cbv in Hk |- *.
    repeat match goal with
    | H : _ \/ _ |- _ => destruct H
    | H : False |- _ => destruct H
    end; subst; split; intros H;
      repeat match goal with
      | H : _ \/ _ |- _ => destruct H
      | H : False |- _ => destruct H
      | H : _ = _ |- _ => discriminate H
      end; tauto.
  - intros k Hk. cbv in Hk |- *.
    repeat match goal with
    | H : _ \/ _ |- _ => destruct H
    | H : False |- _ => destruct H
    end; subst; split; intros H;
      repeat match goal with
      | H : _ \/ _ |- _ => destruct H
      | H : False |- _ => destruct H
      | H : _ = _ |- _ => discriminate H
      end; tauto.
Defined.

(* ================================================================== *)
(** ** Further properties: the width *)

(** X5. Asking for the width a card already has changes nothing: the final
    width, passed back as [card_width], is the final width again. *)
Theorem final_width_is_a_fixed_point :
  forall (env : Collaborators) (stats : StatsData) (options : StatCardOptions),
    width stats (with_card_width (WNumber (width stats options)) options)
    = width stats options.
Proof.
  intros env stats options.
  pose proof (minCardWidth_floor stats options) as Hfloor.
  pose proof (width_at_least_min stats options) as Hmin.
  rewrite (width_of_number stats
             (with_card_width (WNumber (width stats options)) options)
             (width stats options)) by (reflexivity || lra).
  change (minCardWidth stats
            (with_card_width (WNumber (width stats options)) options))
    with (minCardWidth stats options).
  destruct (Rlt_dec _ _); [lra | reflexivity].
Qed.

(** X6. For a [card_width] that is a number other than 0 the final width is
    the larger of that number and the computed minimum; so a larger
    request never gives a narrower card. *)
Theorem final_width_of_a_number :
  forall (env : Collaborators) (stats : StatsData) (options : StatCardOptions)
         (r1 r2 : R),
    r1 <> 0 -> r2 <> 0 -> r1 <= r2 ->
    width stats (with_card_width (WNumber r1) options)
    = Rmax r1 (minCardWidth stats options)
    /\ width stats (with_card_width (WNumber r1) options)
       <= width stats (with_card_width (WNumber r2) options).
Proof.
  intros env stats options r1 r2 H1 H2 Hle.
  assert (Hw : forall r, r <> 0 ->
                 width stats (with_card_width (WNumber r) options)
                 = Rmax r (minCardWidth stats options)).
  { intros r Hr.
    rewrite (width_of_number stats (with_card_width (WNumber r) options) r)
      by (reflexivity || assumption).
    change (minCardWidth stats (with_card_width (WNumber r) options))
      with (minCardWidth stats options).
    unfold Rmax.
    destruct (Rlt_dec _ _); destruct (Rle_dec _ _); lra. }
  split; [now apply Hw |].
  rewrite !Hw by assumption.
  unfold Rmax. repeat destruct (Rle_dec _ _); lra.
Qed.

(** A request of -5 and one of 500 on a default card: 420 and 500. *)
Lemma final_width_of_a_number_witness :
  width (env := plain_collaborators) sample_stats
    (with_card_width (WNumber (-5)) default_options)
  <= width (env := plain_collaborators) sample_stats
       (with_card_width (WNumber 500) default_options).
Proof.
  apply (final_width_of_a_number plain_collaborators sample_stats
           default_options (-5) 500); lra.
Defined.

(** X7. No card is narrower than 287. With the rank hidden the card is at
    least as wide as twice the measured title plus 50 of padding; with
    the rank shown it is at least 420 wide when there are rows and 290
    when there are none. *)
Theorem final_width_floors :
  forall (env : Collaborators) (stats : StatsData) (options : StatCardOptions),
    287 <= width stats options
    /\ (hide_rank options = true ->
        50 + calculateTextWidth stats options * 2 <= width stats options)
    /\ (hide_rank options = false -> statItems stats options <> [] ->
        420 <= width stats options)
    /\ (hide_rank options = false -> statItems stats options = [] ->
        290 <= width stats options).
Proof.
  intros env stats options.
  pose proof (minCardWidth_floor stats options) as Hfloor.
  pose proof (width_at_least_min stats options) as Hmin.
  pose proof (iconWidth_range stats options) as Hicon.
  split; [lra |]. split; [| split].
  - intros Hr. unfold minCardWidth, clampValue_unbounded in Hmin.
    rewrite Hr in Hmin.
    pose proof (Rmax_r CARD_MIN_WIDTH
                  (50 + calculateTextWidth stats options * 2)).
    destruct Hicon as [Hi | Hi]; rewrite Hi in Hmin; lra.
  - intros Hr Hrows. apply rows_present in Hrows.
    unfold minCardWidth, RANK_CARD_MIN_WIDTH in Hmin.
    rewrite Hr, Hrows in Hmin. cbn [negb] in Hmin.
    destruct Hicon as [Hi | Hi]; rewrite Hi in Hmin; lra.
  - intros Hr Hrows.
    unfold minCardWidth, RANK_ONLY_CARD_MIN_WIDTH in Hmin.
    rewrite Hr, Hrows in Hmin. cbn [List.length Nat.eqb negb] in Hmin.
    destruct Hicon as [Hi | Hi]; rewrite Hi in Hmin; lra.
Qed.

(** A title 200 wide with the rank hidden: the card is 450 wide or more. *)
Lemma final_width_floors_witness :
  50 + 200 * 2
  <= width (env := plain_collaborators) sample_stats
       (with_hide_rank true default_options).
Proof.
  apply (proj1 (proj2 (final_width_floors plain_collaborators sample_stats
                         (with_hide_rank true default_options)))).
  reflexivity.
Defined.

(** X8. Without a [card_width], turning the icons on widens the card by the
    icon allowance of 17 when there are rows, and not at all when there
    are none. *)
Theorem icons_widen_by_seventeen :
  forall (env : Collaborators) (stats : StatsData) (options : StatCardOptions),
    card_width options = WUndefined ->
    width stats (with_show_icons true options)
    = width stats (with_show_icons false options)
      + (if (List.length (statItems stats options) =? 0)%nat
         then 0 else 17).
Proof.
  intros env stats options Hcw.
  assert (Hlen : forall b,
            List.length (statItems stats (with_show_icons b options))
            = List.length (statItems stats options)).
  { intros b. now rewrite !statItems_length. }
  assert (Htitle : forall b,
            calculateTextWidth stats (with_show_icons b options)
            = calculateTextWidth stats options).
  { intros b. unfold calculateTextWidth, defaultTitle. rewrite Hlen.
    reflexivity. }
  rewrite !width_of_default by (left; cbn; now rewrite Hcw).
  unfold minCardWidth, defaultCardWidth, iconWidth.
  rewrite !Htitle, !Hlen. cbn [show_icons hide_rank with_show_icons andb].
  unfold Rmax.
  destruct (List.length (statItems stats options) =? 0)%nat; cbn [negb];
    repeat destruct (Rle_dec _ _); lra.
Qed.

(** A default card: 467 with icons, 450 without. *)
Lemma icons_widen_by_seventeen_witness :
  width (env := plain_collaborators) sample_stats
    (with_show_icons true default_options)
  = width (env := plain_collaborators) sample_stats
      (with_show_icons false default_options) + 17.
Proof.
  exact (icons_widen_by_seventeen plain_collaborators sample_stats
           default_options eq_refl).
Defined.

(* ================================================================== *)
(** ** Further properties: the rank indicator *)

(** X9. On a card that shows the rank and has rows the translation depends
    on the final width and the icon allowance only: up to 450 it is
    [140 + (width + iconWidth) / 2], so that widening the card moves the
    indicator by half as much; beyond 450 it is
    [width - 85 + iconWidth / 2], so that the distance to the right edge
    stays what it is at 450. *)
Theorem rank_translation_by_width :
  forall (env : Collaborators) (stats : StatsData) (options : StatCardOptions),
    hide_rank options = false ->
    statItems stats options <> [] ->
    let w := width stats options in
    let iw := iconWidth stats options in
    let x := calculateRankXTranslation stats options in
    (w <= 450 -> x = 140 + (w + iw) / 2)
    /\ (w > 450 -> x = w - 85 + iw / 2)
    /\ (w > 450 -> w - x = 450 - (140 + (450 + iw) / 2)).
Proof.
  intros env stats options Hr Hrows w iw x. subst w iw x.
  apply rows_present in Hrows.
  unfold calculateRankXTranslation, minCardWidth, RANK_CARD_MIN_WIDTH,
    RANK_CARD_DEFAULT_WIDTH.
  rewrite Hr, Hrows. cbn [negb].
  destruct (Rgt_dec _ _); repeat split; intros; lra.
Qed.

(** A default card 500 wide: the indicator is 85 short of the right
    edge. *)
Lemma rank_translation_by_width_witness :
  calculateRankXTranslation (env := plain_collaborators) sample_stats
    (with_card_width (WNumber 500) default_options)
  = width (env := plain_collaborators) sample_stats
      (with_card_width (WNumber 500) default_options) - 85
    + iconWidth (env := plain_collaborators) sample_stats
        (with_card_width (WNumber 500) default_options) / 2.
Proof.
  apply (proj1 (proj2 (rank_translation_by_width plain_collaborators
                         sample_stats
                         (with_card_width (WNumber 500) default_options)
                         eq_refl ltac:(discriminate)))).
  eval_widths.
Defined.

(** X10. The rank circle, of radius 40 around the translation plus [cx],
    lies between the left and the right edge of every card that shows
    it. *)
Theorem rank_circle_inside_card :
  forall (env : Collaborators) (stats : StatsData) (options : StatCardOptions),
    hide_rank options = false ->
    let centre := calculateRankXTranslation stats options + rank_circle_cx in
    0 <= centre - rank_circle_r
    /\ centre + rank_circle_r <= width stats options.
Proof.
  intros env stats options Hr centre. subst centre.
  pose proof (width_at_least_min stats options) as Hmin.
  pose proof (iconWidth_range stats options) as Hicon.
  unfold rank_circle_cx, rank_circle_r.
  unfold calculateRankXTranslation, RANK_CARD_MIN_WIDTH,
    RANK_CARD_DEFAULT_WIDTH.
  unfold minCardWidth, RANK_CARD_MIN_WIDTH, RANK_ONLY_CARD_MIN_WIDTH in *.
  rewrite Hr in *.
  destruct (negb (List.length (statItems stats options) =? 0)%nat).
  - destruct (Rgt_dec _ _); destruct Hicon as [Hi | Hi]; rewrite Hi in *;
      lra.
  - destruct Hicon as [Hi | Hi]; rewrite Hi in *; lra.
Qed.

(** The circle of a default card: from 300 to 380 on a width of 450. *)
Lemma rank_circle_inside_card_witness :
  calculateRankXTranslation (env := plain_collaborators) sample_stats
    default_options + rank_circle_cx + rank_circle_r
  <= width (env := plain_collaborators) sample_stats default_options.
Proof.
  exact (proj2 (rank_circle_inside_card plain_collaborators sample_stats
                  default_options eq_refl)).
Defined.

(* ================================================================== *)
(** ** Further properties: height and keyframes *)

(** X11. The height is a number exactly when the line height reads as one.
    It is then never negative, whatever the sign of the line height, and
    at least 150 when the rank is shown; with the rank hidden and a line
    height that is not negative it is [45 + (n + 1) * L] for [n] rows. *)
Theorem card_height_bounds :
  forall (env : Collaborators) (stats : StatsData) (options : StatCardOptions),
    (height stats options = None <-> lheight options = None)
    /\ (forall h, height stats options = Some h ->
                  (0 <= h)%Z
                  /\ (hide_rank options = false -> (150 <= h)%Z))
    /\ (forall L, lheight options = Some L ->
                  hide_rank options = true -> (0 <= L)%Z ->
                  height stats options
                  = Some (45 + (Z.of_nat (List.length (statItems stats options))
                                + 1) * L)%Z).
Proof.
  intros env stats options. unfold height.
  destruct (lheight options) as [L |].
  - split; [split; discriminate |]. split.
    + intros h [= <-]. split.
      * destruct (hide_rank options); [| destruct (negb _)]; lia.
      * intros ->. destruct (negb _); lia.
    + intros L' [= <-] -> HL. f_equal. nia.
  - split; [split; reflexivity |]. split.
    + intros h H. discriminate.
    + intros L H. discriminate.
Qed.

(** A line height of -40 with the rank hidden: the height is 0. *)
Lemma card_height_bounds_witness :
  height (env := plain_collaborators) sample_stats
    (with_line_height "-40" (with_hide_rank true default_options))
  = Some 0%Z
  /\ (0 <= 0)%Z.
Proof.
  split; [reflexivity |].
  apply (proj1 (proj2 (card_height_bounds plain_collaborators sample_stats
           (with_line_height "-40" (with_hide_rank true default_options))))
           0%Z eq_refl).
Defined.

Lemma clamp_inside (v : R) : 0 <= v <= 100 -> clamp v 0 100 = v.
Proof.
  intros Hv. unfold clamp, Rmax, Rmin.
  destruct (Rle_dec v 100); destruct (Rle_dec 0 _); lra.
Qed.

Lemma clamp_below (v : R) : v <= 0 -> clamp v 0 100 = 0.
Proof.
  intros Hv. unfold clamp, Rmax, Rmin.
  destruct (Rle_dec v 100); destruct (Rle_dec 0 _); lra.
Qed.

Lemma clamp_above (v : R) : 100 <= v -> clamp v 0 100 = 100.
Proof.
  intros Hv. unfold clamp, Rmax, Rmin.
  destruct (Rle_dec v 100); destruct (Rle_dec 0 _); lra.
Qed.

(** X12. Outside of the test environment the animation runs from the full
    circumference to the share of it that the percentile leaves: to
    [percentile / 100 * C] for a percentile between 0 and 100, to 0 for a
    percentile below and to [C] for one above. Under the test environment
    there are no keyframes. *)
Theorem keyframes_by_percentile :
  forall (env : Collaborators) (stats : StatsData),
    let p := percentile (rank stats) in
    (NODE_ENV_test = true -> cssStyles stats = None)
    /\ (NODE_ENV_test = false ->
        exists to, cssStyles stats = Some (circumference, to)
                   /\ (0 <= p <= 100 -> to = p / 100 * circumference)
                   /\ (p <= 0 -> to = 0)
                   /\ (100 <= p -> to = circumference)).
Proof.
  intros env stats p. subst p. unfold cssStyles, getStyles.
  split; intros ->; [reflexivity |].
  eexists. split; [| split; [| split]].
  - unfold getProgressAnimation. f_equal. f_equal.
    rewrite Arc.clamped, clamp_inside by lra. unfold circumference. lra.
  - intros Hp. unfold progress.
    rewrite Arc.clamped, clamp_inside by lra. unfold circumference. lra.
  - intros Hp. unfold progress.
    rewrite Arc.clamped, clamp_above by lra. lra.
  - intros Hp. unfold progress.
    rewrite Arc.clamped, clamp_below by lra. unfold circumference. lra.
Qed.

(** The percentile 40 of the sample: the animation ends at two fifths
    of the circumference. *)
Lemma keyframes_by_percentile_witness :
  exists to,
    cssStyles (env := plain_collaborators) sample_stats
    = Some (circumference, to)
    /\ to = 40 / 100 * circumference.
Proof.
  destruct (proj2 (keyframes_by_percentile plain_collaborators sample_stats)
              eq_refl) as [to [Hcss [Hin _]]].
  exists to. split; [exact Hcss |].
  apply Hin. cbn [percentile rank sample_stats]. lra.
Defined.

(* ================================================================== *)
(** ** Further properties: what a row and the card carry *)

Module RowFacts.

Local Open Scope string_scope.

(** Only the entry of the merged percentage has a unit. *)
Lemma STATS_units {env : Collaborators} (stats : StatsData)
    (options : StatCardOptions) :
  Forall (fun p => unitSymbol (snd p)
                   = if String.eqb (fst p) "prs_merged_percentage"
                     then Some "%" else None)
         (STATS stats options).
Proof.
  unfold STATS.
  repeat match goal with
  | |- Forall _ (if ?b then _ else _) => destruct b
  | |- Forall _ (Js.set _ _ _) =>
      apply JsFacts.set_Forall; [| reflexivity]
  | |- Forall _ [] => constructor
  end.
Qed.

Lemma commits_label {env : Collaborators} (stats : StatsData)
    (options : StatCardOptions) :
  label (STATS_at stats options "commits")
  = t stats options "statcard.commits" ++
    (if include_all_commits options then ""
     else " (" ++ Js.number_to_string currentYear ++ ")").
Proof.
  unfold STATS_at, STATS.
  destruct (Js.includes (show options) "prs_merged");
  destruct (Js.includes (show options) "prs_merged_percentage");
  destruct (Js.includes (show options) "reviews");
  destruct (Js.includes (show options) "discussions_started");
  destruct (Js.includes (show options) "discussions_answered");
  reflexivity.
Qed.

Lemma append_nil (a b : string) : a ++ b = "" -> a = "" /\ b = "".
Proof. destruct a; simpl; [tauto | discriminate]. Qed.

Lemma label_of_not_empty {env : Collaborators} (stats : StatsData)
    (options : StatCardOptions) (key : string) :
  label_of stats options key <> "".
Proof.
  unfold label_of. destruct (String.eqb key "commits"); intros H.
  - apply append_nil in H. destruct H as [_ H]. discriminate.
  - apply append_nil in H. destruct H as [_ H]. discriminate.
Qed.

Lemma join_nil (sep : string) (a : list string) :
  (forall x, In x a -> x <> "") -> Js.join sep a = "" -> a = [].
Proof.
  destruct a as [| x [| y a']]; intros Hne H; [reflexivity | |]; exfalso.
  - apply (Hne x); [now left | exact H].
  - simpl in H. apply append_nil in H. apply (Hne x); [now left | tauto].
Qed.

End RowFacts.

(** X13. The row of the merged percentage ends in the unit [%]; no other row
    has a unit. *)
Theorem only_the_percentage_has_a_unit :
  forall (env : Collaborators) (stats : StatsData) (options : StatCardOptions),
    Forall (fun row =>
              tn_unit row
              = if String.eqb (tn_testid row) "prs_merged_percentage"
                then Some "%"%string else None)
           (statItems stats options).
Proof.
  intros env stats options. rewrite Forall_forall. intros row Hrow.
  unfold statItems, Js.map_indexed in Hrow.
  apply A11y.in_map_from in Hrow. destruct Hrow as [key [j [Hkey ->]]].
  apply filter_In in Hkey. destruct Hkey as [Hkey _].
  cbn [createTextNode tn_unit tn_testid].
  rewrite (STATS_at_id stats options key Hkey).
  unfold STATS_at.
  destruct (JsFacts.get_of_keys _ _ _ Hkey) as [s [Hget Hs]].
  rewrite Hget.
  pose proof (RowFacts.STATS_units stats options) as Hall.
  rewrite Forall_forall in Hall. specialize (Hall _ Hs).
  cbn [fst snd] in Hall. rewrite Hall.
  now destruct (String.eqb key "prs_merged_percentage").
Qed.

(** X14. The row of the commits is labelled with the translated commits label
    followed by the current year in parentheses, and with the translated
    label alone under [include_all_commits]. *)
Theorem commits_row_label :
  forall (env : Collaborators) (stats : StatsData) (options : StatCardOptions)
         (row : TextNode),
    In row (statItems stats options) ->
    tn_testid row = "commits"%string ->
    tn_label row
    = (t stats options "statcard.commits" ++
       (if include_all_commits options then ""
        else " (" ++ Js.number_to_string currentYear ++ ")"))%string.
Proof.
  intros env stats options row Hrow Hid.
  rewrite (A11y.row_of_key stats options row Hrow), Hid.
  apply RowFacts.commits_label.
Qed.

(** The second row of a default card in 2026. *)
Lemma commits_row_label_witness :
  exists row,
    nth_error (statItems (env := plain_collaborators) sample_stats
                 default_options) 1 = Some row
    /\ tn_label row = "statcard.commits (2026)"%string.
Proof.
  eexists. split; [reflexivity |].
  rewrite (commits_row_label plain_collaborators sample_stats
             default_options).
  - reflexivity.
  - cbn. right. left. reflexivity.
  - reflexivity.
Defined.

(** X15. The accessibility description is the empty text exactly when the
    card has no row. *)
Theorem description_empty_iff_no_rows :
  forall (env : Collaborators) (stats : StatsData) (options : StatCardOptions),
    labels stats options = ""%string <-> statItems stats options = [].
Proof.
  intros env stats options.
  assert (Hrows : statItems stats options = [] <->
                  filter (fun key => negb (Js.includes (hide options) key))
                         (Js.keys (STATS stats options)) = []).
  { rewrite visible_keys, <- statItems_ids with (stats := stats).
    destruct (statItems stats options); simpl; split; congruence. }
  rewrite Hrows. unfold labels. split.
  - intros H. apply RowFacts.join_nil in H.
    + now apply map_eq_nil in H.
    + intros x Hx. apply in_map_iff in Hx. destruct Hx as [key [<- _]].
      apply RowFacts.label_of_not_empty.
  - intros ->. reflexivity.
Qed.

(** X16. A card that is rendered is never empty: it has the rank circle
    exactly when [hide_rank] is off, and at least one row when it has no
    rank circle. *)
Theorem rendered_card_shows_something :
  forall (env : Collaborators) (stats : StatsData) (options : StatCardOptions)
         (m : Markup),
    renderStatsCard stats options = inr m ->
    (m_rankCircle m = None <-> hide_rank options = true)
    /\ (m_rankCircle m = None -> m_items m <> []).
Proof.
  intros env stats options m Hm. unfold renderStatsCard in Hm.
  destruct (statItems stats options) as [| row rows] eqn:Hrows;
    destruct (hide_rank options) eqn:Hr; cbn in Hm; try discriminate;
    injection Hm as <-; cbn [m_rankCircle m_items]; unfold rankCircle;
    rewrite Hr, ?Hrows; (split; [split; congruence | congruence]).
Qed.

(** A default card with the rank hidden: five rows and no circle. *)
Lemma rendered_card_shows_something_witness :
  exists m,
    renderStatsCard (env := plain_collaborators) sample_stats
      (with_hide_rank true default_options) = inr m
    /\ m_rankCircle m = None
    /\ m_items m <> [].
Proof.
  eexists. split; [reflexivity |]. split; [reflexivity |].
  apply (proj2 (rendered_card_shows_something plain_collaborators
                  sample_stats (with_hide_rank true default_options) _
                  eq_refl)).
  reflexivity.
Defined.

(* ================================================================== *)
(** ** Further properties: reading the line height *)

Module ParseInt.

Local Open Scope string_scope.
Local Open Scope Z_scope.







End ParseInt.



(* ================================================================== *)
(** ** Further properties: rows and their entries, the possessive *)

(** X18. Every row shows the entry of [STATS] that its [data-testid] names:
    that entry's label, its value as [number_format] asks for it (the
    value itself when the format is [long] in any letter case, what
    [kFormatter] makes of it otherwise), and its icon when icons are
    shown, with the label moved to 25. *)
Theorem row_shows_its_own_entry :
  forall (env : Collaborators) (stats : StatsData) (options : StatCardOptions),
    Forall
      (fun row =>
         let entry := STATS_at stats options (tn_testid row) in
         tn_label row = label entry
         /\ tn_kValue row
            = (if String.eqb (Js.toLowerCase (number_format options)) "long"
               then value_to_string (value entry)
               else kFormatter (value entry))
         /\ tn_iconSvg row
            = (if show_icons options then Some (icon entry) else None)
         /\ tn_labelOffset row
            = (if show_icons options then Some 25%Z else None)
         /\ tn_bold row = text_bold options)
      (statItems stats options).
Proof.
  intros env stats options. rewrite Forall_forall. intros row Hrow.
  unfold statItems, Js.map_indexed in Hrow.
  apply A11y.in_map_from in Hrow. destruct Hrow as [key [j [Hkey ->]]].
  apply filter_In in Hkey. destruct Hkey as [Hkey _].
  cbn [createTextNode tn_label tn_kValue tn_iconSvg tn_labelOffset tn_bold
       tn_testid].
  rewrite (STATS_at_id stats options key Hkey).
  repeat split; reflexivity.
Qed.

Module Possessive.

Local Open Scope string_scope.

Lemma slice_last_snoc (pre : string) (c : ascii) :
  Js.slice_last (pre ++ String c "") = String c "".
Proof.
  induction pre as [| a pre IH]; [reflexivity |].
  cbn [append]. destruct pre as [| b pre']; [reflexivity |].
  exact IH.
Qed.

End Possessive.

(** X19. The possessive suffix handed to the translations is empty when the
    name ends in s or x, in either letter case, and is "s" for every
    other name, the empty one included. *)
Theorem apostrophe_by_last_letter :
  forall (stats : StatsData),
    (name stats = ""%string -> apostrophe stats = "s"%string)
    /\ (forall (pre : string) (c : ascii),
          name stats = (pre ++ String c "")%string ->
          apostrophe stats
          = if (Ascii.eqb c "s" || Ascii.eqb c "S"
                || Ascii.eqb c "x" || Ascii.eqb c "X")%bool
            then ""%string else "s"%string).
Proof.
  intros stats. unfold apostrophe. split.
  - intros ->. reflexivity.
  - intros pre c ->. rewrite Possessive.slice_last_snoc.
    destruct c as [[|] [|] [|] [|] [|] [|] [|] [|]]; reflexivity.
Qed.

(** Alex gets no further s; Anurag Hazra gets one. *)
Lemma apostrophe_by_last_letter_witness :
  apostrophe {| name := "Alex"; totalStars := 0; totalCommits := 0;
                totalIssues := 0; totalPRs := 0; totalPRsMerged := 0;
                mergedPRsPercentage := 0; totalReviews := 0;
                totalDiscussionsStarted := 0;
                totalDiscussionsAnswered := 0; contributedTo := 0;
                rank := {| level := "C"; percentile := 100 |} |}
  = ""%string
  /\ apostrophe sample_stats = "s"%string.
Proof.
  split.
  - apply (proj2 (apostrophe_by_last_letter
             {| name := "Alex"; totalStars := 0; totalCommits := 0;
                totalIssues := 0; totalPRs := 0; totalPRsMerged := 0;
                mergedPRsPercentage := 0; totalReviews := 0;
                totalDiscussionsStarted := 0;
                totalDiscussionsAnswered := 0; contributedTo := 0;
                rank := {| level := "C"; percentile := 100 |} |})
             "Ale"%string "x"%char).
    reflexivity.
  - apply (proj2 (apostrophe_by_last_letter sample_stats)
             "Anurag Hazr"%string "a"%char).
    reflexivity.
Defined.
